(** * go-openai-client: the remote backend (client.go) and the conversation controller

    A shallow embedding of the [openai] package's [Client] and of the
    conversation controller of package [chat], with the properties of their
    public operations.

    Conventions of the embedding.
    - A Go [string] is a [string]; [int], [int64] and [time.Duration] are [Z];
      [float64] is a binary64 float; a pointer that may be [nil] is an
      [option]; a slice is a [list].
    - A Go result pair [(v, err)] of a function of this repository is a pair of
      options; [(nil, err)] is [(None, Some err)].
    - The [*Client] receiver lives in the state, next to the trace of what
      the client marshaled and sent; a method is a state transformer that
      either returns or panics.
    - What the Go libraries and the network answer is given by an environment
      [Env] of oracles; every theorem holds for all of them.
    - [GetModels] plays no part in the properties below and is left out. *)

From Stdlib Require Import ZArith String List.
From Stdlib Require Import Floats.PrimFloat.
From stdpp Require Import base option gmap strings list pretty.

Local Open Scope Z_scope.
Local Open Scope string_scope.

(** ** Go base values *)

Definition float64 : Type := PrimFloat.float.

(** An [error] value: one made from a message alone ([errors.New], or
    [fmt.Errorf] without [%w]), or one that wraps another error (the operand of
    a [%w] verb). *)
Inductive error : Type :=
| errors_New (text : string)
| errors_Wrap (text : string) (cause : error).

(** [err.Error()]. *)
Definition error_Error (err : error) : string :=
  match err with
  | errors_New text => text
  | errors_Wrap text _ => text
  end.

(** [errors.Unwrap(err)]. *)
Definition errors_Unwrap (err : error) : option error :=
  match err with
  | errors_New _ => None
  | errors_Wrap _ cause => Some cause
  end.

(** [fmt.Errorf(text)] with no verb. *)
Definition fmt_Errorf (text : string) : error := errors_New text.

(** [fmt.Errorf(prefix + "%w", err)]. *)
Definition fmt_Errorf_w (prefix : string) (err : error) : error :=
  errors_Wrap (prefix +:+ error_Error err) err.

(** The dynamic values a [map[string]interface{}] can hold. *)
Inductive any : Type :=
| any_nil
| any_string (s : string)
| any_Duration (d : Z)
| any_int (n : Z)
| any_float64 (f : float64)
| any_bool (b : bool).

(** [v, ok := x.(string)] where [x] is a map lookup: a missing key gives the
    nil interface, on which the assertion fails. *)
Definition assert_string (x : option any) : string * bool :=
  match x with
  | Some (any_string s) => (s, true)
  | _ => ("", false)
  end.

(** [v, ok := x.(time.Duration)]. *)
Definition assert_Duration (x : option any) : Z * bool :=
  match x with
  | Some (any_Duration d) => (d, true)
  | _ => (0, false)
  end.

Module time.
(** [time.Duration] counts nanoseconds. *)
Definition Duration : Type := Z.
Definition Second : Duration := 1000000000.

(** [time.Time]: the zero value, or the instant built by [time.Unix]. *)
Variant Time : Type :=
| zero
| Unix (sec nsec : Z).
End time.

(** [context.Context]; only handed on to the HTTP library. *)
Variant Context : Type :=
| context_nil
| context_Background
| context_WithCancel (cancelled : bool)
| context_WithTimeout (d : time.Duration).

Module http.
Definition StatusOK : Z := 200.

Module Client.
Record t : Type := mk { Timeout : time.Duration }.
End Client.

Module Request.
Record t : Type := mk {
  Ctx : Context;
  Method : string;
  URL : string;
  Header : gmap string (list string);
  Body : option string
}.

(** [req.Header.Set(key, value)]; the keys used here are already in
    canonical form. *)
Definition Header_Set (key value : string) (r : t) : t :=
  mk (Ctx r) (Method r) (URL r) (<[key := [value]]> (Header r)) (Body r).
End Request.

(** A response body: the bytes [io.ReadAll] delivers, or the error it
    ends with. *)
Module ReadCloser.
Record t : Type := mk { data : string; read_err : option error }.
End ReadCloser.

Module Response.
Record t : Type := mk { StatusCode : Z; Body : ReadCloser.t }.
End Response.
End http.

(** [io.ReadAll(body)]; the data read before an error is dropped by every
    caller. *)
Definition io_ReadAll (b : http.ReadCloser.t) : string + error :=
  match http.ReadCloser.read_err b with
  | Some err => inr err
  | None => inl (http.ReadCloser.data b)
  end.

(** ** Data model of package [openai] *)

(** The file that declares [Message], [ChatCompletionRequest],
    [ChatCompletionResponse], [Request] and [Response] is not among the
    sources.  Their fields are those client.go reads and writes, with the
    types the README and the wire format of section 6 of the specification
    give them. *)
Module Message.
(** Modelled from the spec: the declaration of [Message] is missing; a role
    and a content (README; specification, section 3). *)
Record t : Type := mk { Role : string; Content : string }.
End Message.

Module ChatCompletionRequest.
(** Modelled from the spec: the declaration of [ChatCompletionRequest] is
    missing; the fields are those of the README, which client.go copies
    one by one. *)
Record t : Type := mk {
  Model : string;
  Messages : list Message.t;
  MaxTokens : option Z;
  Temperature : option float64;
  TopP : option float64;
  Stream : bool
}.
End ChatCompletionRequest.

Module Choice.
(** Modelled from the spec: the declaration of a choice is missing; client.go
    reads its [Message]. *)
Record t : Type := mk { Message : Message.t }.
End Choice.

Module Usage.
(** Modelled from the spec: the declaration of the usage counters is missing;
    client.go reads [TotalTokens], the specification names all three. *)
Record t : Type := mk {
  PromptTokens : Z;
  CompletionTokens : Z;
  TotalTokens : Z
}.
End Usage.

Module ChatCompletionResponse.
(** Modelled from the spec: the declaration of [ChatCompletionResponse] is
    missing; client.go reads [Choices], [Usage], [Model] and [Created]. *)
Record t : Type := mk {
  Model : string;
  Created : Z;
  Choices : list Choice.t;
  Usage : Usage.t
}.
End ChatCompletionResponse.

Module Request.
(** Modelled from the spec: the declaration of the legacy [Request] is
    missing; client.go reads these six fields. *)
Record t : Type := mk {
  Model : string;
  Messages : list Message.t;
  MaxTokens : option Z;
  Temperature : option float64;
  TopP : option float64;
  Stream : bool
}.
End Request.

Module Response.
(** Modelled from the spec: the declaration of the legacy [Response] is
    missing; client.go writes these five fields. *)
Record t : Type := mk {
  Content : string;
  TokensUsed : Z;
  Model : string;
  Timestamp : time.Time;
  Error : option error
}.
End Response.

(** The anonymous struct [openAIRequest] that ChatCompletion marshals. *)
Module OpenAIRequest.
Record t : Type := mk {
  Model : string;
  Messages : list Message.t;
  MaxTokens : option Z;
  Temperature : option float64;
  TopP : option float64;
  Stream : bool
}.
End OpenAIRequest.

(** The anonymous struct [errorResponse] a non-200 body is decoded into;
    its only field, [Error], is itself a struct of three strings. *)
Module ErrorResponse.
Record t : Type := mk { Message : string; Type_ : string; Code : string }.
End ErrorResponse.

(** ** The client *)

Record Client : Type := mkClient {
  apiKey : string;
  baseURL : string;
  httpClient : option http.Client.t;
  model : string
}.

Module Config.
Record t : Type := mk {
  APIKey : string;
  BaseURL : string;
  Model : string;
  Timeout : time.Duration;
  MaxRetries : Z
}.
End Config.

(** [NewClient]: the three defaults are applied to the local copy of
    [config], then the client is allocated. *)
Definition NewClient (config : Config.t) : Client :=
  let BaseURL :=
    if decide (Config.BaseURL config = "")
    then "https://api.openai.com/v1" else Config.BaseURL config in
  let Model :=
    if decide (Config.Model config = "")
    then "gpt-4" else Config.Model config in
  let Timeout :=
    if decide (Config.Timeout config = 0)
    then 30 * time.Second else Config.Timeout config in
  {| apiKey := Config.APIKey config;
     baseURL := BaseURL;
     model := Model;
     httpClient := Some (http.Client.mk Timeout) |}.

(** ** The world outside the process *)

(** What the client marshals and sends, in the order it does; a request that
    was sent is recorded with what came back. *)
Variant Event : Type :=
| ev_json_Marshal (v : OpenAIRequest.t)
| ev_Client_Do (hc : http.Client.t) (req : http.Request.t)
    (result : http.Response.t + error)
| ev_Body_Close.

(** What the libraries and the provider answer.  [http_Client_Do] sees the
    calls made so far, so the provider may answer the same request
    differently over time. *)
Record Env : Type := mkEnv {
  json_Marshal : OpenAIRequest.t → string + error;
  http_NewRequest_refuses : Context → string → string → option error;
  http_Client_Do : list Event → http.Client.t → http.Request.t →
                   http.Response.t + error;
  json_Unmarshal_errorResponse : string → ErrorResponse.t + error;
  json_Unmarshal_ChatCompletionResponse :
    string → ChatCompletionResponse.t + error
}.

(** ** State and control *)

Record State : Type := mkState { client : Client; trace : list Event }.

Variant outcome (A : Type) : Type :=
| Returns (a : A)
| Panics (reason : string).
Arguments Returns {A} a.
Arguments Panics {A} reason.

(** A computation over a state [S]: it returns or panics, and leaves a state
    behind either way. *)
Definition Go (S A : Type) : Type := S → outcome A * S.

Definition ret {S A : Type} (a : A) : Go S A := λ st, (Returns a, st).

Definition bind {S A B : Type} (m : Go S A) (k : A → Go S B) : Go S B :=
  λ st, match m st with
        | (Returns a, st') => k a st'
        | (Panics reason, st') => (Panics reason, st')
        end.

Notation "'let*' x := m 'in' k" := (bind m (λ x, k))
  (at level 10, x name, m at level 100, k at level 200).

Definition panic {S A : Type} (reason : string) : Go S A :=
  λ st, (Panics reason, st).

Definition get {S : Type} : Go S S := λ st, (Returns st, st).

Definition modify {S : Type} (f : S → S) : Go S unit :=
  λ st, (Returns tt, f st).

Definition nil_dereference : string :=
  "invalid memory address or nil pointer dereference".

Definition get_client : Go State Client := λ st, (Returns (client st), st).

Definition modify_client (f : Client → Client) : Go State unit :=
  modify (λ st, mkState (f (client st)) (trace st)).

Definition emit (ev : Event) : Go State unit :=
  modify (λ st, mkState (client st) (trace st ++ [ev])).

(** [defer cleanup()] followed by [body]: the cleanup runs when the body is
    left, by a return or by a panic. *)
Definition defer {S A : Type} (cleanup : Go S unit) (body : Go S A) : Go S A :=
  λ st, let '(r, st') := body st in
        let '(_, st'') := cleanup st' in
        (r, st'').

(** [resp.Body.Close()]. *)
Definition Body_Close : Go State unit := emit ev_Body_Close.

Section Methods.
Variable E : Env.

(** [json.Marshal(openAIRequest)]. *)
Definition Marshal (v : OpenAIRequest.t) : Go State (string + error) :=
  let* _ := emit (ev_json_Marshal v) in
  ret (json_Marshal E v).

(** [http.NewRequestWithContext(ctx, method, url, body)]: a request with
    no headers, unless the library refuses the arguments. *)
Definition http_NewRequestWithContext (ctx : Context) (method url : string)
    (body : option string) : http.Request.t + error :=
  match http_NewRequest_refuses E ctx method url with
  | Some err => inr err
  | None => inl (http.Request.mk ctx method url ∅ body)
  end.

(** [hc.Do(req)] on the pointer [hc]. *)
Definition Client_Do (hc : option http.Client.t) (req : http.Request.t)
    : Go State (http.Response.t + error) :=
  match hc with
  | None => panic nil_dereference
  | Some cl =>
      let* st := get in
      let result := http_Client_Do E (trace st) cl req in
      let* _ := emit (ev_Client_Do cl req result) in
      ret result
  end.

(** [func (c *Client) Name() string]. *)
Definition Name : Go State string := ret "OpenAI".

(** [func (c *Client) ChatCompletion(ctx, req)]. *)
Definition ChatCompletion (ctx : Context) (req : ChatCompletionRequest.t)
    : Go State (option ChatCompletionResponse.t * option error) :=
  let* c := get_client in
  if decide (ChatCompletionRequest.Model req = "") then
    ret (None, Some (fmt_Errorf "model is required"))
  else if decide (length (ChatCompletionRequest.Messages req) = 0%nat) then
    ret (None, Some (fmt_Errorf "messages are required"))
  else
    let openAIRequest :=
      OpenAIRequest.mk
        (ChatCompletionRequest.Model req)
        (ChatCompletionRequest.Messages req)
        (ChatCompletionRequest.MaxTokens req)
        (ChatCompletionRequest.Temperature req)
        (ChatCompletionRequest.TopP req)
        (ChatCompletionRequest.Stream req) in
    let* marshaled := Marshal openAIRequest in
    match marshaled with
    | inr err => ret (None, Some (fmt_Errorf_w "failed to marshal request: " err))
    | inl requestBody =>
      let url := baseURL c +:+ "/chat/completions" in
      match http_NewRequestWithContext ctx "POST" url (Some requestBody) with
      | inr err => ret (None, Some (fmt_Errorf_w "failed to create request: " err))
      | inl httpReq =>
        let httpReq :=
          http.Request.Header_Set "Content-Type" "application/json" httpReq in
        let httpReq :=
          http.Request.Header_Set "Authorization" ("Bearer " +:+ apiKey c) httpReq in
        let* sent := Client_Do (httpClient c) httpReq in
        match sent with
        | inr err => ret (None, Some (fmt_Errorf_w "failed to send request: " err))
        | inl resp =>
          defer Body_Close
            match io_ReadAll (http.Response.Body resp) with
            | inr err => ret (None, Some (fmt_Errorf_w "failed to read response: " err))
            | inl responseBody =>
              if decide (http.Response.StatusCode resp ≠ http.StatusOK) then
                match json_Unmarshal_errorResponse E responseBody with
                | inl errorResponse =>
                    ret (None, Some (fmt_Errorf
                      ("OpenAI API error (" +:+ pretty (http.Response.StatusCode resp)
                       +:+ "): " +:+ ErrorResponse.Message errorResponse)))
                | inr _ =>
                    ret (None, Some (fmt_Errorf
                      ("OpenAI API error (" +:+ pretty (http.Response.StatusCode resp)
                       +:+ "): " +:+ responseBody)))
                end
              else
                match json_Unmarshal_ChatCompletionResponse E responseBody with
                | inr err => ret (None, Some (fmt_Errorf_w "failed to parse response: " err))
                | inl openAIResponse => ret (Some openAIResponse, None)
                end
            end
        end
      end
    end.

(** [func (c *Client) SendMessage(ctx, req)]. *)
Definition SendMessage (ctx : Context) (req : Request.t)
    : Go State (option Response.t * option error) :=
  let chatReq :=
    ChatCompletionRequest.mk
      (Request.Model req)
      (Request.Messages req)
      (Request.MaxTokens req)
      (Request.Temperature req)
      (Request.TopP req)
      (Request.Stream req) in
  let* c := get_client in
  let chatReq :=
    if decide (ChatCompletionRequest.Model chatReq = "") then
      ChatCompletionRequest.mk
        (model c)
        (ChatCompletionRequest.Messages chatReq)
        (ChatCompletionRequest.MaxTokens chatReq)
        (ChatCompletionRequest.Temperature chatReq)
        (ChatCompletionRequest.TopP chatReq)
        (ChatCompletionRequest.Stream chatReq)
    else chatReq in
  let* result := ChatCompletion ctx chatReq in
  let '(chatResp, err) := result in
  match err with
  | Some err => ret (Some (Response.mk "" 0 "" time.zero (Some err)), Some err)
  | None =>
    match chatResp with
    | None => panic nil_dereference
    | Some chatResp =>
      if decide (length (ChatCompletionResponse.Choices chatResp) = 0%nat) then
        ret (Some (Response.mk "" 0 "" time.zero
                     (Some (fmt_Errorf "no response choices returned"))),
             Some (fmt_Errorf "no response choices returned"))
      else
        match ChatCompletionResponse.Choices chatResp !! 0%nat with
        | None => panic "index out of range"
        | Some choice =>
            ret (Some (Response.mk
                         (Message.Content (Choice.Message choice))
                         (Usage.TotalTokens (ChatCompletionResponse.Usage chatResp))
                         (ChatCompletionResponse.Model chatResp)
                         (time.Unix (ChatCompletionResponse.Created chatResp) 0)
                         None),
                 None)
        end
    end
  end.

(** [func (c *Client) IsAvailable(ctx) bool]. *)
Definition IsAvailable (ctx : Context) : Go State bool :=
  let* c := get_client in
  let url := baseURL c +:+ "/models" in
  match http_NewRequestWithContext ctx "GET" url None with
  | inr _ => ret false
  | inl req =>
    let req :=
      http.Request.Header_Set "Authorization" ("Bearer " +:+ apiKey c) req in
    let* sent := Client_Do (httpClient c) req in
    match sent with
    | inr _ => ret false
    | inl resp =>
        defer Body_Close
          (ret (bool_decide (http.Response.StatusCode resp = http.StatusOK)))
    end
  end.
End Methods.

(** The four assignments of [Configure]. *)
Definition set_apiKey (v : string) (c : Client) : Client :=
  mkClient v (baseURL c) (httpClient c) (model c).

Definition set_baseURL (v : string) (c : Client) : Client :=
  mkClient (apiKey c) v (httpClient c) (model c).

Definition set_model (v : string) (c : Client) : Client :=
  mkClient (apiKey c) (baseURL c) (httpClient c) v.

(** [c.httpClient.Timeout = timeout], a store through the pointer. *)
Definition set_httpClient_Timeout (timeout : time.Duration) : Go State unit :=
  let* c := get_client in
  match httpClient c with
  | None => panic nil_dereference
  | Some _ =>
      modify_client
        (λ c, mkClient (apiKey c) (baseURL c)
                (Some (http.Client.mk timeout)) (model c))
  end.

(** [func (c *Client) Configure(config map[string]interface{}) error]. *)
Definition Configure (config : gmap string any) : Go State (option error) :=
  let* _ :=
    let '(apiKey, ok) := assert_string (config !! "api_key") in
    if ok && bool_decide (apiKey ≠ "")
    then modify_client (set_apiKey apiKey) else ret tt in
  let* _ :=
    let '(baseURL, ok) := assert_string (config !! "base_url") in
    if ok && bool_decide (baseURL ≠ "")
    then modify_client (set_baseURL baseURL) else ret tt in
  let* _ :=
    let '(model, ok) := assert_string (config !! "model") in
    if ok && bool_decide (model ≠ "")
    then modify_client (set_model model) else ret tt in
  let* _ :=
    let '(timeout, ok) := assert_Duration (config !! "timeout") in
    if ok && bool_decide (0 < timeout)
    then set_httpClient_Timeout timeout else ret tt in
  let* c := get_client in
  if decide (apiKey c = "") then ret (Some (fmt_Errorf "api_key is required"))
  else ret None.

(** [func (c *Client) GetDefaultModel() string]. *)
Definition GetDefaultModel : Go State string :=
  let* c := get_client in ret (model c).

(** [func (c *Client) SetDefaultModel(model string)]. *)
Definition SetDefaultModel (model : string) : Go State unit :=
  modify_client (set_model model).

(** ** The model list *)

Module Model.
(** [type Model struct], an entry of the provider's model list. *)
Record t : Type := mk {
  ID : string;
  Object : string;
  Created : Z;
  OwnedBy : string
}.
End Model.

(** [func (c *Client) GetModels(ctx) ([]Model, error)].  [decode] is what
    [json.NewDecoder(resp.Body).Decode(&response)] leaves in [response.Data],
    or the error it returns; it reads the body itself.  A nil slice is the
    empty list. *)
Definition GetModels (E : Env)
    (decode : http.ReadCloser.t → list Model.t + error) (ctx : Context)
    : Go State (list Model.t * option error) :=
  let* c := get_client in
  let url := baseURL c +:+ "/models" in
  match http_NewRequestWithContext E ctx "GET" url None with
  | inr err => ret ([], Some (fmt_Errorf_w "failed to create request: " err))
  | inl req =>
    let req :=
      http.Request.Header_Set "Authorization" ("Bearer " +:+ apiKey c) req in
    let* sent := Client_Do E (httpClient c) req in
    match sent with
    | inr err => ret ([], Some (fmt_Errorf_w "failed to send request: " err))
    | inl resp =>
      defer Body_Close
        (if decide (http.Response.StatusCode resp ≠ http.StatusOK) then
           ret ([], Some (fmt_Errorf
                            ("API error: " +:+ pretty (http.Response.StatusCode resp))))
         else
           match decode (http.Response.Body resp) with
           | inr err =>
               ret ([], Some (fmt_Errorf_w "failed to decode response: " err))
           | inl data => ret (data, None)
           end)
    end
  end.

(** ** The example program examples/basic *)

Module basic.

(** How the process ends: [main] returns, [log.Fatal] exits, or a panic
    unwinds. *)
Variant End : Type :=
| returned
| log_Fatal (message : string)
| panicked (reason : string).

(** A run of the program: how it ends, the lines it printed on standard
    output, and what its client marshaled and sent. *)
Record Run : Type := mkRun {
  ended : End;
  stdout : list string;
  sent : list Event
}.

Definition newline : string := String (Ascii.ascii_of_nat 10) EmptyString.

(** The request [main] builds. *)
Definition request : ChatCompletionRequest.t :=
  ChatCompletionRequest.mk "gpt-3.5-turbo"
    [Message.mk "system" "You are a helpful assistant.";
     Message.mk "user" "Hello! Can you tell me a brief joke?"]
    (Some 100)
    (Some 0x1.6666666666666p-1%float)
    None
    false.

(** [func main()] of examples/basic; [os_Getenv] is the environment of the
    process. *)
Definition main (E : Env) (os_Getenv : string → string) : Run :=
  let apiKey := os_Getenv "OPENAI_API_KEY" in
  if decide (apiKey = "") then
    mkRun (log_Fatal "OPENAI_API_KEY environment variable is required") [] []
  else
    let client :=
      NewClient (Config.mk apiKey "" "gpt-3.5-turbo" 0 0) in
    let ctx := context_Background in
    let '(out, st) := ChatCompletion E ctx request (mkState client []) in
    match out with
    | Panics reason => mkRun (panicked reason) [] (trace st)
    | Returns (_, Some err) =>
        mkRun (log_Fatal ("Error making request: " +:+ error_Error err)) []
          (trace st)
    | Returns (None, None) => mkRun (panicked nil_dereference) [] (trace st)
    | Returns (Some resp, None) =>
        if decide (0 < length (ChatCompletionResponse.Choices resp))%nat then
          match ChatCompletionResponse.Choices resp !! 0%nat with
          | None => mkRun (panicked "index out of range") [] (trace st)
          | Some choice =>
              mkRun returned
                [ "AI Response: " +:+ Message.Content (Choice.Message choice)
                    +:+ newline;
                  "Tokens used: "
                    +:+ pretty (Usage.TotalTokens (ChatCompletionResponse.Usage resp))
                    +:+ newline ]
                (trace st)
          end
        else
          mkRun returned ["No response received" +:+ newline] (trace st)
    end.
End basic.

(** ** The Backend capability *)

(** The part of the [Backend] interface the conversation controller calls.
    A backend carries a state of its own, of type [B]. *)
Class Backend (B : Type) : Type := {
  Backend_ChatCompletion :
    Context → ChatCompletionRequest.t →
    Go B (option ChatCompletionResponse.t * option error);
  Backend_Name : Go B string
}.

(** The remote backend: the client, in a given environment. *)
Definition remote_Backend (E : Env) : Backend State :=
  {| Backend_ChatCompletion := ChatCompletion E; Backend_Name := Name |}.

(** ** The conversation controller (package [chat]) *)

Module chat.

(** The source of package [chat] is not among the sources: everything in this
    module follows sections 3 and 4.2 of the specification, and the calls of
    the example programs. *)

Module Conversation.
(** Modelled from the spec: a conversation (section 3). *)
Record t : Type := mk {
  ID : string;
  Messages : list Message.t;
  CreatedAt : time.Time
}.
End Conversation.

Module ControllerConfig.
(** Modelled from the spec: the controller's configuration, as the example
    programs fill it. *)
Record t : Type := mk {
  DefaultModel : string;
  MaxTokens : Z;
  Temperature : float64
}.
End ControllerConfig.

Module ChatRequest.
(** Modelled from the spec: the argument of the controller's [SendMessage]. *)
Record t : Type := mk { ConversationID : string; Message : string }.
End ChatRequest.

Module ChatResponse.
(** Modelled from the spec: the result of the controller's [SendMessage],
    the assistant message and the usage counters. *)
Record t : Type := mk { Message : Message.t; Usage : Usage.t }.
End ChatResponse.

Module ConversationSummary.
(** Modelled from the spec: the result of [GetConversationSummary]. *)
Record t : Type := mk {
  MessageCount : Z;
  UserMessages : Z;
  AssistantMessages : Z;
  EstimatedTokens : Z
}.
End ConversationSummary.

Module ControllerStats.
(** Modelled from the spec: the result of [GetStats] (section 3). *)
Record t : Type := mk {
  TotalMessages : Z;
  TotalConversations : Z;
  BackendName : string
}.
End ControllerStats.

(** Modelled from the spec: the controller of package [chat] is missing.  It
    owns the conversation mapping, the order of insertion, a counter the
    identifiers are drawn from, and the two aggregate counters.  The
    exclusion primitive of section 5 has no counterpart: operations run
    one at a time. *)
Record Controller (B : Type) : Type := mkController {
  backend : B;
  config : ControllerConfig.t;
  conversations : gmap string Conversation.t;
  order : list string;
  nextID : N;
  totalMessages : Z;
  totalConversations : Z
}.
Arguments mkController {B}.
Arguments backend {B}.
Arguments config {B}.
Arguments conversations {B}.
Arguments order {B}.
Arguments nextID {B}.
Arguments totalMessages {B}.
Arguments totalConversations {B}.

(** Modelled from the spec: [NewController(backend, config)], with no
    conversation and both counters at zero. *)
Definition NewController {B : Type} (b : B) (cfg : ControllerConfig.t)
    : Controller B :=
  mkController b cfg ∅ [] 0%N 0 0.

(** Modelled from the spec: identifiers come from a monotonic counter, so
    an identifier is never issued twice. *)
Definition conversation_id (k : N) : string := "conv_" +:+ pretty k.

(** Modelled from the spec: the failure of a lookup of an unknown
    identifier. *)
Definition NotFoundError (id : string) : error :=
  fmt_Errorf ("conversation not found: " +:+ id).

(** Modelled from the spec: the number of messages with a given role, for
    the summary. *)
Definition count_role (role : string) (msgs : list Message.t) : Z :=
  Z.of_nat (length (filter (λ m, Message.Role m = role) msgs)).

(** Modelled from the spec: the token estimate is proportional to the
    number of characters, here one token for four characters. *)
Definition estimate_tokens (msgs : list Message.t) : Z :=
  Z.of_nat (foldr (λ m n, String.length (Message.Content m) + n)%nat 0%nat msgs) / 4.

Section Operations.
Context {B : Type} {BE : Backend B}.

(** Modelled from the spec: the conversation registered under [id] is
    replaced by [conv] (an append to its history). *)
Definition put_conversation (id : string) (conv : Conversation.t)
    (ctl : Controller B) : Controller B :=
  mkController (backend ctl) (config ctl)
    (<[id := conv]> (conversations ctl))
    (order ctl) (nextID ctl) (totalMessages ctl) (totalConversations ctl).

(** Modelled from the spec: the message counter grows by [n]. *)
Definition add_totalMessages (n : Z) (ctl : Controller B) : Controller B :=
  mkController (backend ctl) (config ctl) (conversations ctl)
    (order ctl) (nextID ctl) (totalMessages ctl + n) (totalConversations ctl).

(** Modelled from the spec: a call of a backend operation on the backend the
    controller holds. *)
Definition call_backend {A : Type} (m : Go B A) : Go (Controller B) A :=
  λ ctl, let '(r, b) := m (backend ctl) in
         (r, mkController b (config ctl) (conversations ctl) (order ctl)
               (nextID ctl) (totalMessages ctl) (totalConversations ctl)).

(** Modelled from the spec: [CreateConversation(systemPrompt)] allocates
    a new identifier, seeds the history with a system message when a
    prompt is given (a non-empty string), registers the conversation and
    increments the conversation counter.  [now] is the reading of the
    clock. *)
Definition CreateConversation (now : time.Time) (systemPrompt : string)
    : Go (Controller B) Conversation.t :=
  let* ctl := get in
  let messages :=
    if decide (systemPrompt = "") then []
    else [Message.mk "system" systemPrompt] in
  let conv := Conversation.mk (conversation_id (nextID ctl)) messages now in
  let* _ := modify (λ ctl,
    mkController (backend ctl) (config ctl)
      (<[Conversation.ID conv := conv]> (conversations ctl))
      (order ctl ++ [Conversation.ID conv])
      (nextID ctl + 1)%N (totalMessages ctl) (totalConversations ctl + 1)) in
  ret conv.

(** Modelled from the spec: [GetConversation(id)]. *)
Definition GetConversation (id : string)
    : Go (Controller B) (option Conversation.t * option error) :=
  let* ctl := get in
  match conversations ctl !! id with
  | None => ret (None, Some (NotFoundError id))
  | Some conv => ret (Some conv, None)
  end.

(** Modelled from the spec: [ListConversations()], in insertion order. *)
Definition ListConversations : Go (Controller B) (list Conversation.t) :=
  let* ctl := get in
  ret (omap (λ id, conversations ctl !! id) (order ctl)).

(** Modelled from the spec: [DeleteConversation(id)]. *)
Definition DeleteConversation (id : string)
    : Go (Controller B) (option error) :=
  let* ctl := get in
  match conversations ctl !! id with
  | None => ret (Some (NotFoundError id))
  | Some _ =>
    let* _ := modify (λ ctl,
      mkController (backend ctl) (config ctl)
        (delete id (conversations ctl))
        (filter (λ id', id' ≠ id) (order ctl))
        (nextID ctl) (totalMessages ctl) (totalConversations ctl)) in
    ret None
  end.

(** Modelled from the spec: [SendMessage(ctx, request)].  The user
    message is appended before the backend is called and stays appended
    when the backend fails; the backend's error is handed on unchanged.
    On success the first candidate's message is appended as it was
    returned and the message counter grows by two.  The specification
    does not say what happens on a success without candidates; here it is
    a failure that appends nothing. *)
Definition SendMessage (ctx : Context) (req : ChatRequest.t)
    : Go (Controller B) (option ChatResponse.t * option error) :=
  let* ctl := get in
  match conversations ctl !! ChatRequest.ConversationID req with
  | None => ret (None, Some (NotFoundError (ChatRequest.ConversationID req)))
  | Some conv =>
    let userMessage := Message.mk "user" (ChatRequest.Message req) in
    let conv :=
      Conversation.mk (Conversation.ID conv)
        (Conversation.Messages conv ++ [userMessage])
        (Conversation.CreatedAt conv) in
    let* _ := modify (put_conversation (ChatRequest.ConversationID req) conv) in
    let completionReq :=
      ChatCompletionRequest.mk
        (ControllerConfig.DefaultModel (config ctl))
        (Conversation.Messages conv)
        (Some (ControllerConfig.MaxTokens (config ctl)))
        (Some (ControllerConfig.Temperature (config ctl)))
        None
        false in
    let* result := call_backend (Backend_ChatCompletion ctx completionReq) in
    let '(resp, err) := result in
    match err with
    | Some err => ret (None, Some err)
    | None =>
      match resp with
      | None => panic nil_dereference
      | Some resp =>
        match ChatCompletionResponse.Choices resp with
        | [] => ret (None, Some (fmt_Errorf "no response choices returned"))
        | choice :: _ =>
          let assistantMessage := Choice.Message choice in
          let conv :=
            Conversation.mk (Conversation.ID conv)
              (Conversation.Messages conv ++ [assistantMessage])
              (Conversation.CreatedAt conv) in
          let* _ :=
            modify (put_conversation (ChatRequest.ConversationID req) conv) in
          let* _ := modify (add_totalMessages 2) in
          ret (Some (ChatResponse.mk assistantMessage
                       (ChatCompletionResponse.Usage resp)),
               None)
        end
      end
    end
  end.

(** Modelled from the spec: [GetConversationSummary(id)] scans the
    message sequence. *)
Definition GetConversationSummary (id : string)
    : Go (Controller B) (option ConversationSummary.t * option error) :=
  let* ctl := get in
  match conversations ctl !! id with
  | None => ret (None, Some (NotFoundError id))
  | Some conv =>
    let msgs := Conversation.Messages conv in
    ret (Some (ConversationSummary.mk
                 (Z.of_nat (length msgs))
                 (count_role "user" msgs)
                 (count_role "assistant" msgs)
                 (estimate_tokens msgs)),
         None)
  end.

(** Modelled from the spec: [GetStats()]. *)
Definition GetStats : Go (Controller B) ControllerStats.t :=
  let* ctl := get in
  let* name := call_backend Backend_Name in
  ret (ControllerStats.mk (totalMessages ctl) (totalConversations ctl) name).
End Operations.

Section Histories.
Context {B : Type} {BE : Backend B}.

(** Modelled from the spec: identifiers are unique; every identifier in use
    was drawn from the counter. *)
Definition ids_issued (ctl : Controller B) : Prop :=
  ∀ id, is_Some (conversations ctl !! id) →
        ∃ k, (k < nextID ctl)%N ∧ id = conversation_id k.

(** Modelled from the spec: the conversation [id] holds [sys] system
    messages and [n] complete exchanges, that is [n] user messages and [n]
    assistant messages. *)
Definition exchanged (id : string) (sys : Z) (n : nat) (ctl : Controller B)
    : Prop :=
  ∃ conv,
    conversations ctl !! id = Some conv ∧
    Z.of_nat (length (Conversation.Messages conv)) = sys + 2 * Z.of_nat n ∧
    count_role "user" (Conversation.Messages conv) = Z.of_nat n ∧
    count_role "assistant" (Conversation.Messages conv) = Z.of_nat n.

(** Modelled from the spec: [history id n ctl ctl'], the controller goes
    from [ctl] to [ctl'] by creations, sends and deletions, of which exactly
    [n] are [SendMessage] calls on the conversation [id], each of them
    successful (it returns a response that wraps an assistant message), and
    none is a deletion of [id].  Calls on other conversations may end in any
    way. *)
Inductive history (id : string)
    : nat → Controller B → Controller B → Prop :=
| history_done ctl :
    history id 0 ctl ctl
| history_send ctx text resp ctl ctl1 ctl' n :
    SendMessage ctx (ChatRequest.mk id text) ctl
      = (Returns (Some resp, None), ctl1) →
    Message.Role (ChatResponse.Message resp) = "assistant" →
    history id n ctl1 ctl' →
    history id (S n) ctl ctl'
| history_send_other ctx req out ctl ctl1 ctl' n :
    ChatRequest.ConversationID req ≠ id →
    SendMessage ctx req ctl = (out, ctl1) →
    history id n ctl1 ctl' →
    history id n ctl ctl'
| history_create now systemPrompt out ctl ctl1 ctl' n :
    CreateConversation now systemPrompt ctl = (out, ctl1) →
    history id n ctl1 ctl' →
    history id n ctl ctl'
| history_delete id' out ctl ctl1 ctl' n :
    id' ≠ id →
    DeleteConversation id' ctl = (out, ctl1) →
    history id n ctl1 ctl' →
    history id n ctl ctl'.
End Histories.
End chat.

(** ** Notions used in the statements *)

(** The request [SendMessage] builds from a legacy request: the caller's
    fields, with the client's default model in place of an empty one. *)
Definition forwarded_request (c : Client) (req : Request.t)
    : ChatCompletionRequest.t :=
  ChatCompletionRequest.mk
    (if decide (Request.Model req = "") then model c else Request.Model req)
    (Request.Messages req)
    (Request.MaxTokens req)
    (Request.Temperature req)
    (Request.TopP req)
    (Request.Stream req).

(** The events a call added to the trace. *)
Definition new_events (before after : State) : list Event :=
  drop (length (trace before)) (trace after).

(** The option [key] of a configuration mapping, when it holds a non-empty
    string. *)
Definition string_option (config : gmap string any) (key : string)
    : option string :=
  match config !! key with
  | Some (any_string s) => if decide (s = "") then None else Some s
  | _ => None
  end.

(** The option [key] of a configuration mapping, when it holds a positive
    [time.Duration]. *)
Definition Duration_option (config : gmap string any) (key : string)
    : option time.Duration :=
  match config !! key with
  | Some (any_Duration d) => if decide (0 < d) then Some d else None
  | _ => None
  end.

(** The state of a program that builds a client with [NewClient] and then
    calls [Configure] with each of the mappings in turn, going on whatever
    a call returns. *)
Definition configured (config : Config.t) (options : list (gmap string any))
    : State :=
  foldl (λ st opts, snd (Configure opts st)) (mkState (NewClient config) [])
    options.

(** ** Environments for the examples *)

Module Examples.
Definition reply : ChatCompletionResponse.t :=
  ChatCompletionResponse.mk "gpt-4-0613" 1700000000
    [Choice.mk (Message.mk "assistant" "Hello! How can I help?")]
    (Usage.mk 9 7 16).

(** A provider that answers every request with [status] and a body that
    ends with [read_err]; the body decodes to [reply], and as an error
    object to [decoded]. *)
Definition provider (status : Z) (read_err : option error)
    (decoded : ErrorResponse.t + error) : Env :=
  {| json_Marshal := λ _, inl "{..}";
     http_NewRequest_refuses := λ ctx _ _,
       match ctx with
       | context_nil => Some (errors_New "net/http: nil Context")
       | _ => None
       end;
     http_Client_Do := λ _ _ _,
       inl (http.Response.mk status (http.ReadCloser.mk "<body>" read_err));
     json_Unmarshal_errorResponse := λ _, decoded;
     json_Unmarshal_ChatCompletionResponse := λ _, inl reply |}.

Definition healthy : Env :=
  provider 200 None (inl (ErrorResponse.mk "" "" "")).

Definition client0 : State :=
  mkState (NewClient (Config.mk "sk-test" "" "" 0 0)) [].

Definition hello : list Message.t := [Message.mk "user" "Hello!"].
End Examples.

(** Environments in which a library call or the network fails. *)
Module Faults.
(** [json.Marshal] refuses the request (a temperature that is not a
    number, say). *)
Definition marshal_fails : Env :=
  mkEnv (λ _, inr (errors_New "json: unsupported value: NaN"))
    (http_NewRequest_refuses Examples.healthy)
    (http_Client_Do Examples.healthy)
    (json_Unmarshal_errorResponse Examples.healthy)
    (json_Unmarshal_ChatCompletionResponse Examples.healthy).

(** The connection cannot be made. *)
Definition unreachable : Env :=
  mkEnv (json_Marshal Examples.healthy)
    (http_NewRequest_refuses Examples.healthy)
    (λ _ _ _, inr (errors_New "dial tcp: connection refused"))
    (json_Unmarshal_errorResponse Examples.healthy)
    (json_Unmarshal_ChatCompletionResponse Examples.healthy).

(** The provider answers 200 with a body that is not a completion. *)
Definition garbled : Env :=
  mkEnv (json_Marshal Examples.healthy)
    (http_NewRequest_refuses Examples.healthy)
    (http_Client_Do Examples.healthy)
    (json_Unmarshal_errorResponse Examples.healthy)
    (λ _, inr (errors_New "unexpected end of JSON input")).

Definition models : list Model.t :=
  [Model.mk "gpt-4" "model" 1687882411 "openai";
   Model.mk "gpt-3.5-turbo" "model" 1677610602 "openai"].

Definition decode_models : http.ReadCloser.t → list Model.t + error :=
  λ _, inl models.

Definition decode_fails : http.ReadCloser.t → list Model.t + error :=
  λ _, inr (errors_New "invalid character '<' looking for beginning of value").

Definition getenv (key : string) : string :=
  if decide (key = "OPENAI_API_KEY") then "sk-test" else "".
End Faults.

(** * Properties of the client *)

Example NewClient_example :
  NewClient (Config.mk "sk-test" "" "" 0 0)
  = mkClient "sk-test" "https://api.openai.com/v1"
      (Some (http.Client.mk 30000000000)) "gpt-4".
Proof. reflexivity. Qed.

Example ChatCompletion_example :
  fst (ChatCompletion Examples.healthy context_Background
         (ChatCompletionRequest.mk "gpt-4" Examples.hello None None None false)
         Examples.client0)
  = Returns (Some Examples.reply, None).
Proof. reflexivity. Qed.

Example ChatCompletion_example_status :
  fst (ChatCompletion
         (Examples.provider 429 None
            (inl (ErrorResponse.mk "Rate limit reached" "requests" "rate_limit_exceeded")))
         context_Background
         (ChatCompletionRequest.mk "gpt-4" Examples.hello None None None false)
         Examples.client0)
  = Returns (None, Some (errors_New "OpenAI API error (429): Rate limit reached")).
Proof. vm_compute. reflexivity. Qed.

(** ** Running a method *)

(** Unfolding of the control operators. *)
Ltac go_unfold :=
  unfold Marshal, Client_Do, defer, Body_Close, emit, modify_client, modify,
    bind, get, get_client, ret, panic in *.

Lemma new_events_app (st : State) (c : Client) (evs : list Event) :
  new_events st (mkState c (trace st ++ evs)) = evs.
Proof. unfold new_events; cbn [trace]. by rewrite drop_app_length. Qed.

Lemma new_events_refl (st : State) : new_events st st = [].
Proof. unfold new_events. by rewrite drop_all. Qed.

(** Membership of an event among those a call added, once the call has been
    run through: the trace is normalised and the membership is decided event
    by event. *)
Ltac events_in H :=
  cbn [trace client] in H;
  rewrite <- ?app_assoc in H;
  first [ rewrite new_events_app in H | rewrite new_events_refl in H ];
  cbn [app] in H;
  repeat (apply elem_of_cons in H as [H|H]; [simplify_eq|]);
  try (by apply elem_of_nil in H).

(** Two readings of the same oracle answer agree. *)
Ltac same_answer :=
  repeat match goal with
  | H1 : ?x = inl ?a, H2 : inl ?b = ?x |- _ => rewrite H1 in H2; simplify_eq
  | H1 : ?x = inr ?a, H2 : inl ?b = ?x |- _ => rewrite H1 in H2; simplify_eq
  | H1 : ?x = inl ?a, H2 : inr ?b = ?x |- _ => rewrite H1 in H2; simplify_eq
  | H1 : ?x = inr ?a, H2 : inr ?b = ?x |- _ => rewrite H1 in H2; simplify_eq
  | H1 : ?x = inl ?a, H2 : ?x = _ |- _ => rewrite H1 in H2; simplify_eq
  | H1 : ?x = inr ?a, H2 : ?x = _ |- _ => rewrite H1 in H2; simplify_eq
  end.

(** ** Construction *)

(** C7: [NewClient] gives the HTTP client a timeout of 30 seconds when the
    configured timeout is zero and the model ["gpt-4"] when the configured
    model is empty; a timeout that is not zero and a model that is not empty
    are taken over unchanged. *)
Theorem NewClient_defaults (config : Config.t) :
  (Config.Timeout config = 0 →
     httpClient (NewClient config) = Some (http.Client.mk (30 * time.Second))) ∧
  (Config.Timeout config ≠ 0 →
     httpClient (NewClient config) = Some (http.Client.mk (Config.Timeout config))) ∧
  (Config.Model config = "" → model (NewClient config) = "gpt-4") ∧
  (Config.Model config ≠ "" → model (NewClient config) = Config.Model config).
Proof.
  unfold NewClient; cbn [httpClient model].
  repeat split; intros H.
  - by rewrite decide_True.
  - by rewrite decide_False.
  - by rewrite decide_True.
  - by rewrite decide_False.
Qed.

(** The client [NewClient] allocates always has an HTTP client. *)
Lemma NewClient_httpClient (config : Config.t) :
  is_Some (httpClient (NewClient config)).
Proof. unfold NewClient; cbn [httpClient]; eauto. Qed.

(** ** ChatCompletion *)

(** C1: a request with an empty model name or an empty message list is
    refused by [ChatCompletion] with the error of its validation step, and
    the state is left as it was: the client is unchanged and nothing was
    marshaled or sent. *)
Theorem ChatCompletion_validation (E : Env) (ctx : Context)
    (req : ChatCompletionRequest.t) (st : State) :
  ChatCompletionRequest.Model req = "" ∨ ChatCompletionRequest.Messages req = [] →
  ∃ err,
    ChatCompletion E ctx req st = (Returns (None, Some err), st) ∧
    (err = fmt_Errorf "model is required" ∨
     err = fmt_Errorf "messages are required").
Proof.
  intros Hreq. unfold ChatCompletion, bind, get_client.
  destruct (decide (ChatCompletionRequest.Model req = "")) as [Hm|Hm].
  - eexists; split; [reflexivity | by left].
  - destruct Hreq as [Hreq|Hreq]; [done|].
    rewrite Hreq; cbn [length].
    rewrite decide_True by done.
    eexists; split; [reflexivity | by right].
Qed.

Lemma ChatCompletion_validation_witness :
  ∃ err,
    ChatCompletion Examples.healthy context_Background
      (ChatCompletionRequest.mk "gpt-4" [] None None None false) Examples.client0
    = (Returns (None, Some err), Examples.client0) ∧
    (err = fmt_Errorf "model is required" ∨
     err = fmt_Errorf "messages are required").
Proof.
  apply (ChatCompletion_validation Examples.healthy context_Background
           (ChatCompletionRequest.mk "gpt-4" [] None None None false)
           Examples.client0).
  right; reflexivity.
Defined.

(** [ChatCompletion] returns a response or an error, never both and never
    neither; it leaves the client as it was and only adds to the trace. *)
Lemma ChatCompletion_result (E : Env) (ctx : Context)
    (req : ChatCompletionRequest.t) (st st' : State)
    (resp : option ChatCompletionResponse.t) (err : option error) :
  ChatCompletion E ctx req st = (Returns (resp, err), st') →
  (is_Some resp ↔ err = None) ∧ client st' = client st.
Proof.
  intros Hcall. unfold ChatCompletion in Hcall. go_unfold.
  repeat case_match; simplify_eq; cbn [client];
    (split; [split; [intros [? ?]; done | intros ?; by eauto] | done]).
Qed.

(** [ChatCompletion] panics only for want of an HTTP client. *)
Lemma ChatCompletion_returns (E : Env) (ctx : Context)
    (req : ChatCompletionRequest.t) (st : State) :
  is_Some (httpClient (client st)) →
  ∃ result st', ChatCompletion E ctx req st = (Returns result, st').
Proof.
  intros [hc Hhc]. unfold ChatCompletion. go_unfold. rewrite Hhc.
  repeat case_match; simplify_eq; eauto.
Qed.

(** C4, as amended: when the provider answers a [ChatCompletion] call with a
    status other than 200, no response is returned; the call fails, and if
    the body of the answer was read to its end the error message carries
    the status code followed by the message of the error object the body
    decodes to (or by the body itself if it does not decode).  If reading the
    body failed, the error wraps the read error. *)
Theorem ChatCompletion_non_success (E : Env) (ctx : Context)
    (req : ChatCompletionRequest.t) (st st' : State)
    (out : outcome (option ChatCompletionResponse.t * option error))
    (hc : http.Client.t) (httpReq : http.Request.t) (resp : http.Response.t) :
  ChatCompletion E ctx req st = (out, st') →
  ev_Client_Do hc httpReq (inl resp) ∈ new_events st st' →
  http.Response.StatusCode resp ≠ http.StatusOK →
  ∃ err,
    out = Returns (None, Some err) ∧
    (∀ responseBody,
       io_ReadAll (http.Response.Body resp) = inl responseBody →
       err = fmt_Errorf
         ("OpenAI API error (" +:+ pretty (http.Response.StatusCode resp) +:+ "): " +:+
          match json_Unmarshal_errorResponse E responseBody with
          | inl errorResponse => ErrorResponse.Message errorResponse
          | inr _ => responseBody
          end)) ∧
    (∀ cause,
       io_ReadAll (http.Response.Body resp) = inr cause →
       err = fmt_Errorf_w "failed to read response: " cause).
Proof.
  intros Hcall Hev Hstatus.
  unfold ChatCompletion in Hcall. go_unfold.
  repeat case_match; simplify_eq; events_in Hev; same_answer; try done.
  all: eexists; split; [reflexivity|].
  all: split; [intros body Hbody | intros cause Hcause]; same_answer; try done.
  all: by match goal with H : json_Unmarshal_errorResponse _ _ = _ |- _ => rewrite H end.
Qed.

Lemma ChatCompletion_non_success_witness :
  ∃ err,
    Returns (None, Some (fmt_Errorf "OpenAI API error (429): Rate limit reached"))
    = Returns (A := option ChatCompletionResponse.t * option error) (None, Some err) ∧
    (∀ responseBody,
       inl "<body>" = inl (B := error) responseBody →
       err = fmt_Errorf
         ("OpenAI API error (" +:+ pretty 429 +:+ "): " +:+ "Rate limit reached")) ∧
    (∀ cause,
       inl (B := error) "<body>" = inr cause →
       err = fmt_Errorf_w "failed to read response: " cause).
Proof.
  pose (E := Examples.provider 429 None
               (inl (ErrorResponse.mk "Rate limit reached" "requests" "rate_limit_exceeded"))).
  pose (req := ChatCompletionRequest.mk "gpt-4" Examples.hello None None None false).
  pose (run := ChatCompletion E context_Background req Examples.client0).
  apply (ChatCompletion_non_success E context_Background req Examples.client0
           (snd run) (fst run)
           (http.Client.mk 30000000000)
           (http.Request.mk context_Background "POST"
              "https://api.openai.com/v1/chat/completions"
              (<["Authorization" := ["Bearer sk-test"]]>
                 (<["Content-Type" := ["application/json"]]> ∅))
              (Some "{..}"))
           (http.Response.mk 429 (http.ReadCloser.mk "<body>" None))).
  - reflexivity.
  - vm_compute. apply list_elem_of_further, list_elem_of_here.
  - vm_compute. discriminate.
Defined.

(** C4, as stated, fails when the body of the answer cannot be read: the
    provider answers 500, reading the body ends with an error, and the error
    [ChatCompletion] returns is the wrapped read error, with no status code
    in it. *)
Lemma ChatCompletion_status_lost_on_read_error :
  let E := Examples.provider 500 (Some (errors_New "unexpected EOF"))
             (inl (ErrorResponse.mk "The server had an error" "server_error" "")) in
  let req := ChatCompletionRequest.mk "gpt-4" Examples.hello None None None false in
  let run := ChatCompletion E context_Background req Examples.client0 in
  (∃ hc httpReq resp,
     ev_Client_Do hc httpReq (inl resp) ∈ new_events Examples.client0 (snd run) ∧
     http.Response.StatusCode resp = 500) ∧
  ∃ err,
    fst run = Returns (None, Some err) ∧
    error_Error err = "failed to read response: unexpected EOF" ∧
    errors_Unwrap err = Some (errors_New "unexpected EOF").
Proof.
  split.
  - eexists _, _, _. split.
    + vm_compute. apply list_elem_of_further, list_elem_of_here.
    + reflexivity.
  - eexists. split; [vm_compute; reflexivity | split; reflexivity].
Qed.

(** ** SendMessage *)

(** [SendMessage] is its call of [ChatCompletion] on the forwarded request,
    followed by the conversion of what the call returned. *)
Lemma SendMessage_eq (E : Env) (ctx : Context) (req : Request.t) (st : State) :
  SendMessage E ctx req st =
  match ChatCompletion E ctx (forwarded_request (client st) req) st with
  | (Returns (_, Some err), st') =>
      (Returns (Some (Response.mk "" 0 "" time.zero (Some err)), Some err), st')
  | (Returns (None, None), st') => (Panics nil_dereference, st')
  | (Returns (Some chatResp, None), st') =>
      match ChatCompletionResponse.Choices chatResp with
      | [] =>
          (Returns
             (Some (Response.mk "" 0 "" time.zero
                      (Some (fmt_Errorf "no response choices returned"))),
              Some (fmt_Errorf "no response choices returned")),
           st')
      | choice :: _ =>
          (Returns
             (Some (Response.mk
                      (Message.Content (Choice.Message choice))
                      (Usage.TotalTokens (ChatCompletionResponse.Usage chatResp))
                      (ChatCompletionResponse.Model chatResp)
                      (time.Unix (ChatCompletionResponse.Created chatResp) 0)
                      None),
              None),
           st')
      end
  | (Panics reason, st') => (Panics reason, st')
  end.
Proof.
  unfold SendMessage, forwarded_request. go_unfold.
  cbn [ChatCompletionRequest.Model ChatCompletionRequest.Messages
       ChatCompletionRequest.MaxTokens ChatCompletionRequest.Temperature
       ChatCompletionRequest.TopP ChatCompletionRequest.Stream].
  destruct (decide (Request.Model req = ""));
    destruct (ChatCompletion E ctx _ st) as [[[[chatResp|] [err|]]|reason] st'];
    try reflexivity;
    by destruct (ChatCompletionResponse.Choices chatResp).
Qed.

(** C2: the request [SendMessage] hands to [ChatCompletion] has the caller's
    model when that is not empty and the client's default model when it is,
    and the caller's messages, max tokens, temperature, top-p and stream flag.
    [SendMessage] ends in the state in which [ChatCompletion] ends on that
    request, and whenever the request passes validation the first thing the
    call does is to marshal exactly these fields. *)
Theorem SendMessage_forwards (E : Env) (ctx : Context) (req : Request.t)
    (st : State) :
  let chatReq := forwarded_request (client st) req in
  (Request.Model req ≠ "" →
     ChatCompletionRequest.Model chatReq = Request.Model req) ∧
  (Request.Model req = "" →
     ChatCompletionRequest.Model chatReq = model (client st)) ∧
  ChatCompletionRequest.Messages chatReq = Request.Messages req ∧
  ChatCompletionRequest.MaxTokens chatReq = Request.MaxTokens req ∧
  ChatCompletionRequest.Temperature chatReq = Request.Temperature req ∧
  ChatCompletionRequest.TopP chatReq = Request.TopP req ∧
  ChatCompletionRequest.Stream chatReq = Request.Stream req ∧
  snd (SendMessage E ctx req st) = snd (ChatCompletion E ctx chatReq st) ∧
  (ChatCompletionRequest.Model chatReq ≠ "" → Request.Messages req ≠ [] →
   ∃ rest,
     new_events st (snd (SendMessage E ctx req st)) =
       ev_json_Marshal
         (OpenAIRequest.mk
            (if decide (Request.Model req = "")
             then model (client st) else Request.Model req)
            (Request.Messages req)
            (Request.MaxTokens req)
            (Request.Temperature req)
            (Request.TopP req)
            (Request.Stream req)) :: rest).
Proof.
  cbn zeta.
  assert (Hstate : snd (SendMessage E ctx req st)
                   = snd (ChatCompletion E ctx (forwarded_request (client st) req) st)).
  { rewrite SendMessage_eq.
    destruct (ChatCompletion E ctx _ st) as [[[[chatResp|] [err|]]|reason] st'];
      try reflexivity.
    by destruct (ChatCompletionResponse.Choices chatResp). }
  split_and!; try reflexivity.
  - intros Hm. unfold forwarded_request; cbn. by rewrite decide_False.
  - intros Hm. unfold forwarded_request; cbn. by rewrite decide_True.
  - exact Hstate.
  - intros Hm Hmsgs. rewrite Hstate. clear Hstate.
    unfold ChatCompletion. go_unfold.
    rewrite decide_False by done.
    rewrite decide_False by (cbn; by destruct (Request.Messages req)).
    cbn [forwarded_request ChatCompletionRequest.Model
         ChatCompletionRequest.Messages ChatCompletionRequest.MaxTokens
         ChatCompletionRequest.Temperature ChatCompletionRequest.TopP
         ChatCompletionRequest.Stream].
    repeat case_match; simplify_eq; cbn [snd trace];
      rewrite <- ?app_assoc; rewrite new_events_app; cbn [app]; eauto.
Qed.

Example SendMessage_example_default_model :
  new_events Examples.client0
    (snd (SendMessage Examples.healthy context_Background
            (Request.mk "" Examples.hello (Some 100) None None false)
            Examples.client0))
  !! 0%nat
  = Some (ev_json_Marshal
            (OpenAIRequest.mk "gpt-4" Examples.hello (Some 100) None None false)).
Proof. reflexivity. Qed.

(** C8: when the [ChatCompletion] call made by [SendMessage] succeeds, the
    legacy response is built from the first candidate: its content is the
    content of the first choice's message, its token count the total-token
    counter of the usage, its model the model named in the response; with no
    candidate at all, [SendMessage] fails. *)
Theorem SendMessage_first_candidate (E : Env) (ctx : Context) (req : Request.t)
    (st st' : State) (chatResp : ChatCompletionResponse.t) :
  ChatCompletion E ctx (forwarded_request (client st) req) st
    = (Returns (Some chatResp, None), st') →
  (∀ choice rest,
     ChatCompletionResponse.Choices chatResp = choice :: rest →
     SendMessage E ctx req st =
       (Returns
          (Some (Response.mk
                   (Message.Content (Choice.Message choice))
                   (Usage.TotalTokens (ChatCompletionResponse.Usage chatResp))
                   (ChatCompletionResponse.Model chatResp)
                   (time.Unix (ChatCompletionResponse.Created chatResp) 0)
                   None),
           None),
        st')) ∧
  (ChatCompletionResponse.Choices chatResp = [] →
   ∃ resp err, SendMessage E ctx req st = (Returns (resp, Some err), st')).
Proof.
  intros Hcall. split.
  - intros choice rest Hchoices.
    by rewrite SendMessage_eq, Hcall, Hchoices.
  - intros Hchoices.
    rewrite SendMessage_eq, Hcall, Hchoices. eauto.
Qed.

Lemma SendMessage_first_candidate_witness :
  SendMessage Examples.healthy context_Background
    (Request.mk "" Examples.hello None None None false) Examples.client0
  = (Returns
       (Some (Response.mk "Hello! How can I help?" 16 "gpt-4-0613"
                (time.Unix 1700000000 0) None),
        None),
     snd (ChatCompletion Examples.healthy context_Background
            (ChatCompletionRequest.mk "gpt-4" Examples.hello None None None false)
            Examples.client0)).
Proof.
  pose (req := Request.mk "" Examples.hello None None None false).
  pose (run := ChatCompletion Examples.healthy context_Background
                 (forwarded_request (client Examples.client0) req) Examples.client0).
  refine (proj1 (SendMessage_first_candidate Examples.healthy context_Background
                   req Examples.client0 (snd run) Examples.reply _)
            (Choice.mk (Message.mk "assistant" "Hello! How can I help?")) [] _).
  - vm_compute. reflexivity.
  - reflexivity.
Defined.

(** C10: when [SendMessage] fails, because its [ChatCompletion] call returned
    an error or returned a response without candidates, it returns a legacy
    response that is not nil, whose [Error] field holds the error, and
    returns that error beside it; the other fields of the response are
    zero. *)
Theorem SendMessage_failure (E : Env) (ctx : Context) (req : Request.t)
    (st st' : State)
    (result : option ChatCompletionResponse.t * option error) :
  ChatCompletion E ctx (forwarded_request (client st) req) st
    = (Returns result, st') →
  (∀ err,
     snd result = Some err →
     SendMessage E ctx req st =
       (Returns (Some (Response.mk "" 0 "" time.zero (Some err)), Some err), st')) ∧
  (∀ chatResp,
     result = (Some chatResp, None) →
     ChatCompletionResponse.Choices chatResp = [] →
     SendMessage E ctx req st =
       (Returns
          (Some (Response.mk "" 0 "" time.zero
                   (Some (fmt_Errorf "no response choices returned"))),
           Some (fmt_Errorf "no response choices returned")),
        st')).
Proof.
  intros Hcall. destruct result as [resp err0]. split.
  - intros err Herr; cbn in Herr; subst err0.
    rewrite SendMessage_eq, Hcall. by destruct resp.
  - intros chatResp Hresult Hchoices; simplify_eq.
    by rewrite SendMessage_eq, Hcall, Hchoices.
Qed.

Lemma SendMessage_failure_witness :
  SendMessage
    (Examples.provider 401 None
       (inl (ErrorResponse.mk "Incorrect API key provided" "invalid_request_error"
               "invalid_api_key")))
    context_Background
    (Request.mk "" Examples.hello None None None false) Examples.client0
  = (Returns
       (Some (Response.mk "" 0 "" time.zero
                (Some (fmt_Errorf "OpenAI API error (401): Incorrect API key provided"))),
        Some (fmt_Errorf "OpenAI API error (401): Incorrect API key provided")),
     snd (ChatCompletion
            (Examples.provider 401 None
               (inl (ErrorResponse.mk "Incorrect API key provided"
                       "invalid_request_error" "invalid_api_key")))
            context_Background
            (ChatCompletionRequest.mk "gpt-4" Examples.hello None None None false)
            Examples.client0)).
Proof.
  pose (E := Examples.provider 401 None
               (inl (ErrorResponse.mk "Incorrect API key provided"
                       "invalid_request_error" "invalid_api_key"))).
  pose (req := Request.mk "" Examples.hello None None None false).
  pose (run := ChatCompletion E context_Background
                 (forwarded_request (client Examples.client0) req) Examples.client0).
  refine (proj1 (SendMessage_failure E context_Background req Examples.client0
                   (snd run)
                   (None, Some (fmt_Errorf
                      "OpenAI API error (401): Incorrect API key provided")) _) _ _).
  - vm_compute. reflexivity.
  - reflexivity.
Defined.

Example SendMessage_example_no_choices :
  fst (SendMessage
         (mkEnv (json_Marshal Examples.healthy)
            (http_NewRequest_refuses Examples.healthy)
            (http_Client_Do Examples.healthy)
            (json_Unmarshal_errorResponse Examples.healthy)
            (λ _, inl (ChatCompletionResponse.mk "gpt-4" 0 [] (Usage.mk 0 0 0))))
         context_Background
         (Request.mk "" Examples.hello None None None false) Examples.client0)
  = Returns
      (Some (Response.mk "" 0 "" time.zero
               (Some (fmt_Errorf "no response choices returned"))),
       Some (fmt_Errorf "no response choices returned")).
Proof. reflexivity. Qed.

(** [SendMessage] panics only for want of an HTTP client: the response it
    dereferences is never nil. *)
Lemma SendMessage_returns (E : Env) (ctx : Context) (req : Request.t)
    (st : State) :
  is_Some (httpClient (client st)) →
  ∃ result st', SendMessage E ctx req st = (Returns result, st').
Proof.
  intros Hhc.
  destruct (ChatCompletion_returns E ctx (forwarded_request (client st) req) st Hhc)
    as ([resp err] & st' & Hcall).
  destruct (ChatCompletion_result _ _ _ _ _ _ _ Hcall) as [Hshape _].
  rewrite SendMessage_eq, Hcall.
  destruct err as [err|].
  - destruct resp; eauto.
  - destruct (proj2 Hshape eq_refl) as [chatResp ->].
    destruct (ChatCompletionResponse.Choices chatResp); eauto.
Qed.

(** ** IsAvailable *)

(** C5: on a client that has its HTTP client, [IsAvailable] returns a
    boolean and does not panic; it leaves the client as it was.  The boolean
    is [true] exactly when the probe was sent and answered with status 200;
    it is [false] when the request could not be built (nothing is sent
    then), when sending failed, and when the answer has another status. *)
Theorem IsAvailable_returns (E : Env) (ctx : Context) (st : State)
    (hc : http.Client.t) :
  httpClient (client st) = Some hc →
  ∃ b st',
    IsAvailable E ctx st = (Returns b, st') ∧
    client st' = client st ∧
    (b = true ↔
       ∃ req resp,
         ev_Client_Do hc req (inl resp) ∈ new_events st st' ∧
         http.Response.StatusCode resp = http.StatusOK) ∧
    (is_Some (http_NewRequest_refuses E ctx "GET" (baseURL (client st) +:+ "/models")) →
       b = false ∧ st' = st) ∧
    (∀ req err, ev_Client_Do hc req (inr err) ∈ new_events st st' → b = false) ∧
    (∀ req resp,
       ev_Client_Do hc req (inl resp) ∈ new_events st st' →
       http.Response.StatusCode resp ≠ http.StatusOK → b = false).
Proof.
  intros Hhc. unfold IsAvailable, http_NewRequestWithContext. go_unfold.
  rewrite Hhc.
  destruct (http_NewRequest_refuses E ctx "GET" _) as [refusal|] eqn:Hnew.
  { exists false, st. split_and!.
    - reflexivity.
    - reflexivity.
    - split; [done|]. intros (req & resp & Hev & _). events_in Hev.
    - done.
    - intros req err Hev. events_in Hev.
    - intros req resp Hev _. events_in Hev. }
  destruct (http_Client_Do E (trace st) hc _) as [resp|err] eqn:Hdo.
  - eexists _, _. split_and!.
    + reflexivity.
    + reflexivity.
    + split.
      * intros Hb. apply bool_decide_eq_true in Hb.
        eexists _, resp. split; [|done].
        cbn [trace]. rewrite <- app_assoc, new_events_app. apply list_elem_of_here.
      * intros (req & resp' & Hev & Hcode). events_in Hev.
        by apply bool_decide_eq_true.
    + by intros [? ?].
    + intros req err Hev. events_in Hev.
    + intros req resp' Hev Hcode. events_in Hev.
      by apply bool_decide_eq_false.
  - eexists _, _. split_and!.
    + reflexivity.
    + reflexivity.
    + split; [done|]. intros (req & resp' & Hev & Hcode). events_in Hev.
    + by intros [? ?].
    + done.
    + intros req resp' Hev Hcode. events_in Hev.
Qed.

Lemma IsAvailable_returns_witness :
  ∃ b st',
    IsAvailable Examples.healthy context_Background Examples.client0
      = (Returns b, st') ∧
    client st' = client Examples.client0 ∧
    (b = true ↔
       ∃ req resp,
         ev_Client_Do (http.Client.mk 30000000000) req (inl resp)
           ∈ new_events Examples.client0 st' ∧
         http.Response.StatusCode resp = http.StatusOK) ∧
    (is_Some (http_NewRequest_refuses Examples.healthy context_Background "GET"
                (baseURL (client Examples.client0) +:+ "/models")) →
       b = false ∧ st' = Examples.client0) ∧
    (∀ req err,
       ev_Client_Do (http.Client.mk 30000000000) req (inr err)
         ∈ new_events Examples.client0 st' → b = false) ∧
    (∀ req resp,
       ev_Client_Do (http.Client.mk 30000000000) req (inl resp)
         ∈ new_events Examples.client0 st' →
       http.Response.StatusCode resp ≠ http.StatusOK → b = false).
Proof.
  apply (IsAvailable_returns Examples.healthy context_Background Examples.client0
           (http.Client.mk 30000000000)).
  reflexivity.
Defined.

Example IsAvailable_example_up :
  fst (IsAvailable Examples.healthy context_Background Examples.client0)
  = Returns true.
Proof. reflexivity. Qed.

Example IsAvailable_example_down :
  fst (IsAvailable (Examples.provider 503 None (inr (errors_New "EOF")))
         context_Background Examples.client0)
  = Returns false.
Proof. reflexivity. Qed.

Example IsAvailable_example_nil_context :
  IsAvailable Examples.healthy context_nil Examples.client0
  = (Returns false, Examples.client0).
Proof. reflexivity. Qed.

(** ** Configure *)

(** [Configure] keeps the HTTP client allocated. *)
Lemma Configure_httpClient (config : gmap string any) (st st' : State)
    (out : outcome (option error)) :
  Configure config st = (out, st') →
  is_Some (httpClient (client st)) → is_Some (httpClient (client st')).
Proof.
  intros Hcall [hc Hhc]. unfold Configure, set_httpClient_Timeout in Hcall.
  go_unfold.
  repeat (case_match; simplify_eq; cbn in * ); eauto.
Qed.

(** One string option of [Configure]: the field takes the option's value
    when it is a non-empty string and keeps its own otherwise. *)
Lemma Configure_string_step (config : gmap string any) (key : string)
    (set : string → Client → Client) (field : Client → string) (st : State) :
  set (field (client st)) (client st) = client st →
  (let '(v, ok) := assert_string (config !! key) in
   if ok && bool_decide (v ≠ "") then modify_client (set v) else ret tt) st
  = (Returns tt,
     mkState (set (default (field (client st)) (string_option config key)) (client st))
       (trace st)).
Proof.
  intros Hid. unfold assert_string, string_option. go_unfold.
  destruct st as [c tr]; cbn [client trace] in *.
  destruct (config !! key) as [[| s | | | |]|]; cbn; rewrite ?Hid; try done.
  destruct (decide (s = "")) as [->|Hs]; cbn; rewrite ?Hid; try done.
  by rewrite bool_decide_true.
Qed.

(** The timeout option of [Configure]. *)
Lemma Configure_timeout_step (config : gmap string any) (st : State)
    (hc : http.Client.t) :
  httpClient (client st) = Some hc →
  (let '(timeout, ok) := assert_Duration (config !! "timeout") in
   if ok && bool_decide (0 < timeout)
   then set_httpClient_Timeout timeout else ret tt) st
  = (Returns tt,
     mkState
       (mkClient (apiKey (client st)) (baseURL (client st))
          (Some (http.Client.mk
                   (default (http.Client.Timeout hc) (Duration_option config "timeout"))))
          (model (client st)))
       (trace st)).
Proof.
  intros Hhc. unfold assert_Duration, Duration_option, set_httpClient_Timeout.
  go_unfold.
  destruct st as [[k u h m] tr]; cbn [client trace httpClient apiKey baseURL model] in *.
  subst h. destruct hc as [t].
  destruct (config !! "timeout") as [[| | d | | |]|]; cbn; try done.
  destruct (decide (0 < d)); cbn.
  - by rewrite bool_decide_true.
  - by rewrite bool_decide_false.
Qed.

(** C3, as amended: on a client that has its HTTP client, [Configure] sets
    the credential, the base endpoint and the default model to the value of
    the options ["api_key"], ["base_url"] and ["model"] when the option
    holds a string that is not empty, and the timeout to the value of
    ["timeout"] when the option holds a [time.Duration] that is positive;
    a field whose option is missing, of another type, empty or not positive
    keeps its value, and nothing is sent.  It returns an error exactly when
    the credential is empty after these updates. *)
Theorem Configure_updates (config : gmap string any) (st : State)
    (hc : http.Client.t) :
  httpClient (client st) = Some hc →
  ∃ c',
    apiKey c' = default (apiKey (client st)) (string_option config "api_key") ∧
    baseURL c' = default (baseURL (client st)) (string_option config "base_url") ∧
    model c' = default (model (client st)) (string_option config "model") ∧
    httpClient c' =
      Some (http.Client.mk
              (default (http.Client.Timeout hc) (Duration_option config "timeout"))) ∧
    Configure config st =
      (Returns (if decide (apiKey c' = "")
                then Some (fmt_Errorf "api_key is required") else None),
       mkState c' (trace st)).
Proof.
  intros Hhc. destruct st as [[k u h m] tr]; cbn [client httpClient] in Hhc.
  unfold Configure, bind.
  rewrite (Configure_string_step config "api_key" set_apiKey apiKey) by done.
  rewrite (Configure_string_step config "base_url" set_baseURL baseURL) by done.
  rewrite (Configure_string_step config "model" set_model model) by done.
  rewrite (Configure_timeout_step config _ hc) by done.
  cbn [client trace apiKey baseURL model httpClient set_apiKey set_baseURL set_model
       get_client ret].
  eexists (mkClient _ _ _ _). cbn [apiKey baseURL model httpClient].
  split_and!; try reflexivity.
  by destruct (decide _).
Qed.

Lemma Configure_updates_witness :
  ∃ c',
    apiKey c' = "sk-new" ∧
    baseURL c' = "https://api.openai.com/v1" ∧
    model c' = "gpt-4" ∧
    httpClient c' = Some (http.Client.mk 5000000000) ∧
    Configure {["api_key" := any_string "sk-new"; "model" := any_string "";
                "timeout" := any_Duration 5000000000]} Examples.client0
    = (Returns (if decide (apiKey c' = "")
                then Some (fmt_Errorf "api_key is required") else None),
       mkState c' []).
Proof.
  exact (Configure_updates
           {["api_key" := any_string "sk-new"; "model" := any_string "";
             "timeout" := any_Duration 5000000000]}
           Examples.client0 (http.Client.mk 30000000000) eq_refl).
Defined.

(** C3, as stated, fails on an option of another type: the mapping holds a
    timeout, the positive number 60, as an [int]; the type assertion to
    [time.Duration] fails and [Configure] leaves the client as it was. *)
Lemma Configure_ignores_int_timeout :
  let config : gmap string any := {["timeout" := any_int 60]} in
  (config !! "timeout" = Some (any_int 60) ∧ 0 < 60) ∧
  Configure config Examples.client0 = (Returns None, Examples.client0) ∧
  httpClient (client Examples.client0) = Some (http.Client.mk 30000000000).
Proof. cbn zeta. split_and!; [reflexivity | lia | reflexivity | reflexivity]. Qed.

(** A credential given as something else than a string is ignored as well,
    and the missing credential is then reported. *)
Example Configure_ignores_non_string_credential :
  Configure {["api_key" := any_int 42]}
    (mkState (NewClient (Config.mk "" "" "" 0 0)) [])
  = (Returns (Some (fmt_Errorf "api_key is required")),
     mkState (NewClient (Config.mk "" "" "" 0 0)) []).
Proof. reflexivity. Qed.

(** When [Configure] reports no error the client has a credential. *)
Lemma Configure_success_has_credential (config : gmap string any)
    (st st' : State) :
  Configure config st = (Returns None, st') → apiKey (client st') ≠ "".
Proof.
  intros Hcall. unfold Configure, set_httpClient_Timeout in Hcall. go_unfold.
  repeat (case_match; simplify_eq; cbn in * ); done.
Qed.

(** C6: a client built by [NewClient] from a configuration with an empty
    credential is refused by the [Configure] call that follows, unless that
    call supplies a credential: the call returns the error
    ["api_key is required"]. *)
Theorem Configure_requires_credential (config : Config.t)
    (options : gmap string any) (tr : list Event) :
  Config.APIKey config = "" →
  string_option options "api_key" = None →
  ∃ c',
    Configure options (mkState (NewClient config) tr)
    = (Returns (Some (fmt_Errorf "api_key is required")), mkState c' tr) ∧
    apiKey c' = "".
Proof.
  intros Hkey Hopt.
  destruct (NewClient_httpClient config) as [hc Hhc].
  unfold Configure, bind.
  rewrite (Configure_string_step options "api_key" set_apiKey apiKey) by done.
  rewrite (Configure_string_step options "base_url" set_baseURL baseURL) by done.
  rewrite (Configure_string_step options "model" set_model model) by done.
  rewrite (Configure_timeout_step options _ hc) by done.
  rewrite Hopt.
  cbn [client trace apiKey baseURL model httpClient set_apiKey set_baseURL set_model
       get_client ret default].
  change (apiKey (NewClient config)) with (Config.APIKey config).
  rewrite Hkey, decide_True by done.
  by eexists (mkClient _ _ _ _).
Qed.

Lemma Configure_requires_credential_witness :
  ∃ c',
    Configure {["model" := any_string "gpt-3.5-turbo"]}
      (mkState (NewClient (Config.mk "" "" "" 0 0)) [])
    = (Returns (Some (fmt_Errorf "api_key is required")), mkState c' []) ∧
    apiKey c' = "".
Proof.
  apply (Configure_requires_credential (Config.mk "" "" "" 0 0)
           {["model" := any_string "gpt-3.5-turbo"]} []).
  - reflexivity.
  - reflexivity.
Defined.

(** [NewClient] itself reports nothing: with an empty credential it returns
    a client all the same. *)
Example NewClient_accepts_empty_credential :
  apiKey (NewClient (Config.mk "" "" "" 0 0)) = "".
Proof. reflexivity. Qed.

(** * Properties of the conversation controller *)

Section Controller.
Context {B : Type} {BE : Backend B}.
Implicit Types ctl : chat.Controller B.

Ltac ctl_unfold :=
  unfold chat.call_backend, chat.put_conversation, chat.add_totalMessages in *;
  go_unfold.

Lemma conversation_id_inj (k1 k2 : N) :
  chat.conversation_id k1 = chat.conversation_id k2 → k1 = k2.
Proof.
  unfold chat.conversation_id. intros Heq.
  by apply (inj (String.append "conv_")), (inj pretty) in Heq.
Qed.

Lemma count_role_app (role : string) (l1 l2 : list Message.t) :
  chat.count_role role (l1 ++ l2)
  = chat.count_role role l1 + chat.count_role role l2.
Proof. unfold chat.count_role. rewrite filter_app, length_app. lia. Qed.

Lemma count_role_singleton (role : string) (m : Message.t) :
  chat.count_role role [m] = if decide (Message.Role m = role) then 1 else 0.
Proof.
  unfold chat.count_role.
  destruct (decide (Message.Role m = role)) as [Heq|Hne].
  - by rewrite filter_cons_True.
  - by rewrite filter_cons_False.
Qed.

(** A new controller has issued no identifier. *)
Lemma NewController_ids_issued (b : B) (cfg : chat.ControllerConfig.t) :
  chat.ids_issued (chat.NewController b cfg).
Proof. intros id [conv Hconv]. cbn in Hconv. by rewrite lookup_empty in Hconv. Qed.

(** What [SendMessage] does to the conversation mapping: it touches at most
    the conversation it is called on, and creates none. *)
Lemma SendMessage_frame (ctx : Context) (req : chat.ChatRequest.t) ctl ctl1
    (out : outcome (option chat.ChatResponse.t * option error)) :
  chat.SendMessage ctx req ctl = (out, ctl1) →
  chat.nextID ctl1 = chat.nextID ctl ∧
  (∀ id, id ≠ chat.ChatRequest.ConversationID req →
         chat.conversations ctl1 !! id = chat.conversations ctl !! id) ∧
  (is_Some (chat.conversations ctl1 !! chat.ChatRequest.ConversationID req) →
   is_Some (chat.conversations ctl !! chat.ChatRequest.ConversationID req)).
Proof.
  intros Hcall. unfold chat.SendMessage in Hcall. ctl_unfold.
  destruct (chat.conversations ctl !! chat.ChatRequest.ConversationID req)
    as [conv|] eqn:Hconv; simplify_eq. 2: { split_and!; [done | done | by rewrite Hconv]. }
  cbn in Hcall.
  destruct (Backend_ChatCompletion _ _ _) as [[[resp err]|reason] b'];
    repeat (case_match; simplify_eq; cbn in * ); simplify_eq; cbn;
    (split_and!;
     [ done
     | by intros id Hid; rewrite ?lookup_insert_ne by done
     | by eauto ]).
Qed.

Lemma SendMessage_ids_issued (ctx : Context) (req : chat.ChatRequest.t) ctl ctl1
    (out : outcome (option chat.ChatResponse.t * option error)) :
  chat.SendMessage ctx req ctl = (out, ctl1) →
  chat.ids_issued ctl → chat.ids_issued ctl1.
Proof.
  intros Hcall Hissued id Hid.
  destruct (SendMessage_frame _ _ _ _ _ Hcall) as (Hnext & Hframe & Hsame).
  rewrite Hnext. apply Hissued.
  destruct (decide (id = chat.ChatRequest.ConversationID req)) as [->|Hne].
  - by apply Hsame.
  - by rewrite <- Hframe.
Qed.

(** A successful [SendMessage] appends the user message and the message
    it returns, and adds two to the message counter. *)
Lemma SendMessage_success (ctx : Context) (req : chat.ChatRequest.t) ctl ctl1
    (resp : chat.ChatResponse.t) :
  chat.SendMessage ctx req ctl = (Returns (Some resp, None), ctl1) →
  chat.totalMessages ctl1 = chat.totalMessages ctl + 2 ∧
  ∃ conv,
    chat.conversations ctl !! chat.ChatRequest.ConversationID req = Some conv ∧
    chat.conversations ctl1 !! chat.ChatRequest.ConversationID req
    = Some (chat.Conversation.mk (chat.Conversation.ID conv)
              ((chat.Conversation.Messages conv
                  ++ [Message.mk "user" (chat.ChatRequest.Message req)])
                 ++ [chat.ChatResponse.Message resp])
              (chat.Conversation.CreatedAt conv)).
Proof.
  intros Hcall. unfold chat.SendMessage in Hcall. ctl_unfold.
  destruct (chat.conversations ctl !! chat.ChatRequest.ConversationID req)
    as [conv|] eqn:Hconv; simplify_eq.
  cbn in Hcall.
  destruct (Backend_ChatCompletion _ _ _) as [[[cresp err]|reason] b'];
    repeat (case_match; simplify_eq; cbn in * ); simplify_eq; cbn.
  split; [done|]. eexists; split; [done|]. by rewrite lookup_insert_eq.
Qed.

(** [CreateConversation] registers the new conversation under the next
    identifier of the counter and leaves the others alone. *)
Lemma CreateConversation_spec (now : time.Time) (systemPrompt : string) ctl ctl1
    (out : outcome chat.Conversation.t) :
  chat.CreateConversation now systemPrompt ctl = (out, ctl1) →
  let conv :=
    chat.Conversation.mk (chat.conversation_id (chat.nextID ctl))
      (if decide (systemPrompt = "") then []
       else [Message.mk "system" systemPrompt]) now in
  out = Returns conv ∧
  chat.conversations ctl1
    = <[chat.conversation_id (chat.nextID ctl) := conv]> (chat.conversations ctl) ∧
  chat.nextID ctl1 = (chat.nextID ctl + 1)%N ∧
  chat.totalConversations ctl1 = chat.totalConversations ctl + 1.
Proof.
  intros Hcall. unfold chat.CreateConversation in Hcall. ctl_unfold.
  by simplify_eq.
Qed.

(** The identifier the counter gives next is not in use. *)
Lemma next_id_fresh ctl :
  chat.ids_issued ctl →
  chat.conversations ctl !! chat.conversation_id (chat.nextID ctl) = None.
Proof.
  intros Hissued. apply eq_None_not_Some. intros Hsome.
  destruct (Hissued _ Hsome) as (k & Hlt & Heq).
  apply conversation_id_inj in Heq. lia.
Qed.

Lemma CreateConversation_ids_issued (now : time.Time) (systemPrompt : string)
    ctl ctl1 (out : outcome chat.Conversation.t) :
  chat.CreateConversation now systemPrompt ctl = (out, ctl1) →
  chat.ids_issued ctl → chat.ids_issued ctl1.
Proof.
  intros Hcall Hissued id Hid.
  destruct (CreateConversation_spec _ _ _ _ _ Hcall) as (_ & Hconvs & Hnext & _).
  rewrite Hconvs in Hid. rewrite Hnext.
  destruct (decide (id = chat.conversation_id (chat.nextID ctl))) as [->|Hne].
  - exists (chat.nextID ctl). split; [lia|done].
  - rewrite lookup_insert_ne in Hid by done.
    destruct (Hissued _ Hid) as (k & Hlt & Heq). exists k. split; [lia|done].
Qed.

Lemma CreateConversation_frame (now : time.Time) (systemPrompt : string)
    ctl ctl1 (out : outcome chat.Conversation.t) (id : string) :
  chat.CreateConversation now systemPrompt ctl = (out, ctl1) →
  chat.ids_issued ctl →
  is_Some (chat.conversations ctl !! id) →
  chat.conversations ctl1 !! id = chat.conversations ctl !! id.
Proof.
  intros Hcall Hissued Hid.
  destruct (CreateConversation_spec _ _ _ _ _ Hcall) as (_ & Hconvs & _).
  rewrite Hconvs. apply lookup_insert_ne. intros <-.
  rewrite (next_id_fresh _ Hissued) in Hid. by destruct Hid.
Qed.

(** [DeleteConversation] removes at most the conversation it is called
    on. *)
Lemma DeleteConversation_frame (id' : string) ctl ctl1
    (out : outcome (option error)) :
  chat.DeleteConversation id' ctl = (out, ctl1) →
  chat.nextID ctl1 = chat.nextID ctl ∧
  (∀ id, id ≠ id' →
         chat.conversations ctl1 !! id = chat.conversations ctl !! id) ∧
  chat.conversations ctl1 !! id' = None.
Proof.
  intros Hcall. unfold chat.DeleteConversation in Hcall. ctl_unfold.
  destruct (chat.conversations ctl !! id') as [conv|] eqn:Hconv;
    simplify_eq; cbn.
  - split_and!; [done | | by rewrite lookup_delete_eq].
    intros id Hid. by rewrite lookup_delete_ne.
  - by split_and!.
Qed.

Lemma DeleteConversation_ids_issued (id' : string) ctl ctl1
    (out : outcome (option error)) :
  chat.DeleteConversation id' ctl = (out, ctl1) →
  chat.ids_issued ctl → chat.ids_issued ctl1.
Proof.
  intros Hcall Hissued id Hid.
  destruct (DeleteConversation_frame _ _ _ _ Hcall) as (Hnext & Hframe & Hgone).
  rewrite Hnext. apply Hissued.
  destruct (decide (id = id')) as [->|Hne].
  - rewrite Hgone in Hid. by destruct Hid.
  - by rewrite <- Hframe.
Qed.

(** Along a history the conversation gains one user message and one
    assistant message with each of its sends. *)
Lemma history_exchanged (id : string) (n : nat) ctl ctl' :
  chat.history id n ctl ctl' →
  ∀ sys m,
    chat.ids_issued ctl → chat.exchanged id sys m ctl →
    chat.ids_issued ctl' ∧ chat.exchanged id sys (m + n) ctl'.
Proof.
  induction 1 as
    [ ctl
    | ctx text resp ctl ctl1 ctl' n Hsend Hrole _ IH
    | ctx req out ctl ctl1 ctl' n Hother Hsend _ IH
    | now systemPrompt out ctl ctl1 ctl' n Hcreate _ IH
    | id' out ctl ctl1 ctl' n Hother Hdelete _ IH ];
    intros sys m Hissued Hex.
  - by rewrite Nat.add_0_r.
  - replace (m + S n)%nat with (S m + n)%nat by lia.
    apply IH; [by eapply SendMessage_ids_issued|].
    destruct Hex as (conv & Hconv & Hlen & Huser & Hasst).
    destruct (SendMessage_success _ _ _ _ _ Hsend) as (_ & conv0 & Hconv0 & Hconv1).
    cbn [chat.ChatRequest.ConversationID chat.ChatRequest.Message] in *.
    rewrite Hconv in Hconv0; simplify_eq.
    eexists; split; [exact Hconv1|].
    cbn [chat.Conversation.Messages].
    rewrite !length_app, !count_role_app, !count_role_singleton, Hrole.
    cbn [length Message.Role].
    repeat case_decide; simplify_eq. split_and!; lia.
  - apply IH; [by eapply SendMessage_ids_issued|].
    destruct Hex as (conv & Hconv & Hcounts).
    destruct (SendMessage_frame _ _ _ _ _ Hsend) as (_ & Hframe & _).
    exists conv. split; [|done]. by rewrite Hframe.
  - apply IH; [by eapply CreateConversation_ids_issued|].
    destruct Hex as (conv & Hconv & Hcounts).
    exists conv. split; [|done].
    by rewrite (CreateConversation_frame _ _ _ _ _ id Hcreate Hissued).
  - apply IH; [by eapply DeleteConversation_ids_issued|].
    destruct Hex as (conv & Hconv & Hcounts).
    destruct (DeleteConversation_frame _ _ _ _ Hdelete) as (_ & Hframe & _).
    exists conv. split; [|done]. by rewrite Hframe.
Qed.

(** C9: a conversation created with [CreateConversation], after a history
    with [N] calls of [SendMessage] on it, all successful, has the summary
    [MessageCount = (1 if it was seeded with a system prompt, else 0) + 2N],
    [UserMessages = N] and [AssistantMessages = N]; and every successful
    [SendMessage] adds exactly two to the controller's message counter. *)
Theorem summary_after_sends (now : time.Time) (systemPrompt : string)
    ctl0 ctl1 ctlN (conv : chat.Conversation.t) (N : nat) :
  chat.ids_issued ctl0 →
  chat.CreateConversation now systemPrompt ctl0 = (Returns conv, ctl1) →
  chat.history (chat.Conversation.ID conv) N ctl1 ctlN →
  (∃ summary,
     chat.GetConversationSummary (chat.Conversation.ID conv) ctlN
       = (Returns (Some summary, None), ctlN) ∧
     chat.ConversationSummary.MessageCount summary
       = (if decide (systemPrompt = "") then 0 else 1) + 2 * Z.of_nat N ∧
     chat.ConversationSummary.UserMessages summary = Z.of_nat N ∧
     chat.ConversationSummary.AssistantMessages summary = Z.of_nat N) ∧
  (∀ ctx req resp ctl ctl',
     chat.SendMessage ctx req ctl = (Returns (Some resp, None), ctl') →
     chat.totalMessages ctl' = chat.totalMessages ctl + 2).
Proof.
  intros Hissued Hcreate Hhistory. split.
  - destruct (CreateConversation_spec _ _ _ _ _ Hcreate)
      as (Hconv & Hconvs & _ & _).
    simplify_eq. cbn [chat.Conversation.ID] in *.
    set (sys := if decide (systemPrompt = "") then 0 else 1).
    assert (Hstart : chat.exchanged (chat.conversation_id (chat.nextID ctl0)) sys 0 ctl1).
    { eexists. rewrite Hconvs, lookup_insert_eq. split; [done|].
      cbn [chat.Conversation.Messages]. subst sys.
      destruct (decide (systemPrompt = "")); by split_and!. }
    destruct (history_exchanged _ _ _ _ Hhistory sys 0%nat) as [_ Hend];
      [by eapply CreateConversation_ids_issued | done |].
    destruct Hend as (convN & HconvN & Hlen & Huser & Hasst).
    unfold chat.GetConversationSummary. ctl_unfold. rewrite HconvN.
    eexists. split; [reflexivity|].
    cbn [chat.ConversationSummary.MessageCount
         chat.ConversationSummary.UserMessages
         chat.ConversationSummary.AssistantMessages].
    by split_and!.
  - intros ctx req resp ctl ctl' Hsend.
    by destruct (SendMessage_success _ _ _ _ _ Hsend) as [Htotal _].
Qed.
End Controller.

Lemma summary_after_sends_witness :
  let cfg := chat.ControllerConfig.mk "gpt-3.5-turbo" 150 PrimFloat.one in
  let backend := remote_Backend Examples.healthy in
  let ctl0 := chat.NewController Examples.client0 cfg in
  let ctl1 :=
    snd (chat.CreateConversation (time.Unix 1700000000 0)
           "You are a helpful assistant that loves to tell jokes." ctl0) in
  let ctl2 :=
    snd (chat.SendMessage (BE := backend) context_Background
           (chat.ChatRequest.mk "conv_0" "Hello! Can you tell me a joke?") ctl1) in
  let ctl3 :=
    snd (chat.SendMessage (BE := backend) context_Background
           (chat.ChatRequest.mk "conv_0" "That was funny! Can you tell me another one?")
           ctl2) in
  (∃ summary,
     chat.GetConversationSummary "conv_0" ctl3
       = (Returns (Some summary, None), ctl3) ∧
     chat.ConversationSummary.MessageCount summary = 1 + 2 * 2 ∧
     chat.ConversationSummary.UserMessages summary = 2 ∧
     chat.ConversationSummary.AssistantMessages summary = 2) ∧
  (∀ ctx req resp ctl ctl',
     chat.SendMessage (BE := backend) ctx req ctl
       = (Returns (Some resp, None), ctl') →
     chat.totalMessages ctl' = chat.totalMessages ctl + 2).
Proof.
  intros cfg backend ctl0 ctl1 ctl2 ctl3.
  refine (summary_after_sends (BE := backend) (time.Unix 1700000000 0)
            "You are a helpful assistant that loves to tell jokes."
            ctl0 ctl1 ctl3
            (chat.Conversation.mk "conv_0"
               [Message.mk "system"
                  "You are a helpful assistant that loves to tell jokes."]
               (time.Unix 1700000000 0))
            2 _ _ _).
  - apply NewController_ids_issued.
  - vm_compute. reflexivity.
  - eapply (chat.history_send _ context_Background "Hello! Can you tell me a joke?"
              _ ctl1 ctl2).
    + vm_compute. reflexivity.
    + reflexivity.
    + eapply (chat.history_send _ context_Background
                "That was funny! Can you tell me another one?" _ ctl2 ctl3).
      * vm_compute. reflexivity.
      * reflexivity.
      * apply chat.history_done.
Defined.


(** The scenario of section 8 of the specification, on the remote backend
    with a healthy provider: one exchange after a system prompt. *)
Example summary_example_one_exchange :
  let backend := remote_Backend Examples.healthy in
  let ctl0 :=
    chat.NewController Examples.client0
      (chat.ControllerConfig.mk "gpt-3.5-turbo" 150 PrimFloat.one) in
  let ctl1 :=
    snd (chat.CreateConversation (time.Unix 1700000000 0)
           "You are a helpful assistant." ctl0) in
  let ctl2 :=
    snd (chat.SendMessage (BE := backend) context_Background
           (chat.ChatRequest.mk "conv_0" "Hello! Can you tell me a joke?") ctl1) in
  fst (chat.GetConversationSummary "conv_0" ctl2)
  = Returns (Some (chat.ConversationSummary.mk 3 1 1 20), None) ∧
  chat.totalMessages ctl2 = 2.
Proof. vm_compute. split; reflexivity. Qed.

(** A send that fails at the backend leaves its user message in the
    history: the counts of C9 are those of histories without failed sends
    on the conversation. *)
Example summary_example_failed_send :
  let backend :=
    remote_Backend (Examples.provider 503 None (inr (errors_New "EOF"))) in
  let ctl0 :=
    chat.NewController Examples.client0
      (chat.ControllerConfig.mk "gpt-3.5-turbo" 150 PrimFloat.one) in
  let ctl1 :=
    snd (chat.CreateConversation (time.Unix 1700000000 0)
           "You are a helpful assistant." ctl0) in
  let sent :=
    chat.SendMessage (BE := backend) context_Background
      (chat.ChatRequest.mk "conv_0" "Hello!") ctl1 in
  fst sent
  = Returns (None, Some (fmt_Errorf "OpenAI API error (503): <body>")) ∧
  fst (chat.GetConversationSummary "conv_0" (snd sent))
  = Returns (Some (chat.ConversationSummary.mk 2 1 0 8), None) ∧
  chat.totalMessages (snd sent) = 0.
Proof. vm_compute. split_and!; reflexivity. Qed.

(** After its deletion a conversation is unknown. *)
Example SendMessage_example_deleted :
  let backend := remote_Backend Examples.healthy in
  let ctl0 :=
    chat.NewController Examples.client0
      (chat.ControllerConfig.mk "gpt-3.5-turbo" 150 PrimFloat.one) in
  let ctl1 := snd (chat.CreateConversation (time.Unix 1700000000 0) "" ctl0) in
  let ctl2 := snd (chat.DeleteConversation "conv_0" ctl1) in
  fst (chat.SendMessage (BE := backend) context_Background
         (chat.ChatRequest.mk "conv_0" "Hello!") ctl2)
  = Returns (None, Some (fmt_Errorf "conversation not found: conv_0")).
Proof. vm_compute. reflexivity. Qed.

(** * Further properties of the client *)

(** The oracle answers found while running a call are put back into the
    goal. *)
Ltac use_answers :=
  repeat match goal with
  | H : ?x = inl _ |- context [?x] => rewrite H
  | H : ?x = inr _ |- context [?x] => rewrite H
  end.

(** Every equation found while running a call is put back into the goal. *)
Ltac replay :=
  repeat match goal with
  | H : ?x = _ |- context [?x] => progress rewrite H
  end.

(** The events of a call that has been run through, as a list. *)
Ltac events_of_run :=
  cbn [fst snd trace client];
  rewrite <- ?app_assoc;
  first [ rewrite new_events_app | rewrite new_events_refl ];
  cbn [app].

(** ** What ChatCompletion sends *)

(** X1: in one call [ChatCompletion] marshals at most once and sends at most
    one request, never retrying; it closes the response body exactly when
    a response came back.  The events of a call are: none (validation
    failed), the marshal alone, the marshal and a send that failed, or the
    marshal, a send that was answered and the close of the body. *)
Theorem ChatCompletion_events (E : Env) (ctx : Context)
    (req : ChatCompletionRequest.t) (st : State) :
  let evs := new_events st (snd (ChatCompletion E ctx req st)) in
  let marshal :=
    ev_json_Marshal
      (OpenAIRequest.mk
         (ChatCompletionRequest.Model req)
         (ChatCompletionRequest.Messages req)
         (ChatCompletionRequest.MaxTokens req)
         (ChatCompletionRequest.Temperature req)
         (ChatCompletionRequest.TopP req)
         (ChatCompletionRequest.Stream req)) in
  evs = [] ∨
  evs = [marshal] ∨
  (∃ hc httpReq err, evs = [marshal; ev_Client_Do hc httpReq (inr err)]) ∨
  (∃ hc httpReq resp,
     evs = [marshal; ev_Client_Do hc httpReq (inl resp); ev_Body_Close]).
Proof.
  cbn zeta. unfold ChatCompletion. go_unfold.
  repeat case_match; simplify_eq; events_of_run; use_answers; eauto 10.
Qed.

Example ChatCompletion_events_example :
  new_events Examples.client0
    (snd (ChatCompletion Faults.unreachable context_Background
            (ChatCompletionRequest.mk "gpt-4" Examples.hello None None None false)
            Examples.client0))
  = [ev_json_Marshal
       (OpenAIRequest.mk "gpt-4" Examples.hello None None None false);
     ev_Client_Do (http.Client.mk 30000000000)
       (http.Request.mk context_Background "POST"
          "https://api.openai.com/v1/chat/completions"
          (<["Authorization" := ["Bearer sk-test"]]>
             (<["Content-Type" := ["application/json"]]> ∅))
          (Some "{..}"))
       (inr (errors_New "dial tcp: connection refused"))].
Proof. vm_compute. reflexivity. Qed.

(** X2: a request [ChatCompletion] sends is a POST to the client's base URL
    followed by ["/chat/completions"], under the caller's context, through
    the client's HTTP client; its body is what [json.Marshal] gave for the
    caller's fields, and its headers are [Content-Type: application/json]
    and [Authorization: Bearer] with the client's credential, and no
    other. *)
Theorem ChatCompletion_request (E : Env) (ctx : Context)
    (req : ChatCompletionRequest.t) (st : State)
    (hc : http.Client.t) (httpReq : http.Request.t)
    (result : http.Response.t + error) :
  ev_Client_Do hc httpReq result
    ∈ new_events st (snd (ChatCompletion E ctx req st)) →
  ∃ requestBody,
    json_Marshal E
      (OpenAIRequest.mk
         (ChatCompletionRequest.Model req)
         (ChatCompletionRequest.Messages req)
         (ChatCompletionRequest.MaxTokens req)
         (ChatCompletionRequest.Temperature req)
         (ChatCompletionRequest.TopP req)
         (ChatCompletionRequest.Stream req)) = inl requestBody ∧
    httpClient (client st) = Some hc ∧
    httpReq =
      http.Request.mk ctx "POST" (baseURL (client st) +:+ "/chat/completions")
        (<["Authorization" := ["Bearer " +:+ apiKey (client st)]]>
           (<["Content-Type" := ["application/json"]]> ∅))
        (Some requestBody).
Proof.
  intros Hev. unfold ChatCompletion, http_NewRequestWithContext in Hev.
  go_unfold.
  repeat case_match; simplify_eq; cbn [fst snd] in Hev; events_in Hev;
    eauto.
Qed.

Lemma ChatCompletion_request_witness :
  ∃ requestBody,
    inl (B := error) "{..}" = inl requestBody ∧
    Some (http.Client.mk 30000000000) = Some (http.Client.mk 30000000000) ∧
    http.Request.mk context_Background "POST"
      "https://api.openai.com/v1/chat/completions"
      (<["Authorization" := ["Bearer sk-test"]]>
         (<["Content-Type" := ["application/json"]]> ∅))
      (Some "{..}")
    = http.Request.mk context_Background "POST"
        ("https://api.openai.com/v1" +:+ "/chat/completions")
        (<["Authorization" := ["Bearer " +:+ "sk-test"]]>
           (<["Content-Type" := ["application/json"]]> ∅))
        (Some requestBody).
Proof.
  refine (ChatCompletion_request Faults.unreachable context_Background
            (ChatCompletionRequest.mk "gpt-4" Examples.hello None None None false)
            Examples.client0
            (http.Client.mk 30000000000)
            (http.Request.mk context_Background "POST"
               "https://api.openai.com/v1/chat/completions"
               (<["Authorization" := ["Bearer sk-test"]]>
                  (<["Content-Type" := ["application/json"]]> ∅))
               (Some "{..}"))
            (inr (errors_New "dial tcp: connection refused")) _).
  vm_compute. apply list_elem_of_further, list_elem_of_here.
Defined.

(** X3: a response [ChatCompletion] returns is always the decoding of the
    body, read to its end, of an answer with status 200; the call that
    returns it marshaled once, sent one request and closed the body. *)
Theorem ChatCompletion_success (E : Env) (ctx : Context)
    (req : ChatCompletionRequest.t) (st st' : State)
    (resp : ChatCompletionResponse.t) :
  ChatCompletion E ctx req st = (Returns (Some resp, None), st') →
  ∃ hc httpReq reply responseBody,
    new_events st st' =
      [ev_json_Marshal
         (OpenAIRequest.mk
            (ChatCompletionRequest.Model req)
            (ChatCompletionRequest.Messages req)
            (ChatCompletionRequest.MaxTokens req)
            (ChatCompletionRequest.Temperature req)
            (ChatCompletionRequest.TopP req)
            (ChatCompletionRequest.Stream req));
       ev_Client_Do hc httpReq (inl reply);
       ev_Body_Close] ∧
    http.Response.StatusCode reply = http.StatusOK ∧
    io_ReadAll (http.Response.Body reply) = inl responseBody ∧
    json_Unmarshal_ChatCompletionResponse E responseBody = inl resp.
Proof.
  intros Hcall. unfold ChatCompletion in Hcall. go_unfold.
  repeat case_match; simplify_eq.
  eexists _, _, _, _. events_of_run. use_answers.
  split_and!; try done.
  match goal with |- ?a = ?b => by destruct (decide (a = b)) end.
Qed.

Lemma ChatCompletion_success_witness :
  ∃ hc httpReq reply responseBody,
    new_events Examples.client0
      (snd (ChatCompletion Examples.healthy context_Background
              (ChatCompletionRequest.mk "gpt-4" Examples.hello None None None false)
              Examples.client0)) =
      [ev_json_Marshal
         (OpenAIRequest.mk "gpt-4" Examples.hello None None None false);
       ev_Client_Do hc httpReq (inl reply);
       ev_Body_Close] ∧
    http.Response.StatusCode reply = http.StatusOK ∧
    io_ReadAll (http.Response.Body reply) = inl responseBody ∧
    json_Unmarshal_ChatCompletionResponse Examples.healthy responseBody
    = inl Examples.reply.
Proof.
  refine (ChatCompletion_success Examples.healthy context_Background
            (ChatCompletionRequest.mk "gpt-4" Examples.hello None None None false)
            Examples.client0 _ Examples.reply _).
  vm_compute. reflexivity.
Defined.

(** ** How ChatCompletion fails *)

(** X4: on a request that passes validation, a failure of [json.Marshal] or
    of the construction of the HTTP request ends [ChatCompletion] before
    anything is sent: the error wraps the library's error behind the
    prefix ["failed to marshal request: "] or
    ["failed to create request: "], and the only event of the call is the
    marshal. *)
Theorem ChatCompletion_fails_before_send (E : Env) (ctx : Context)
    (req : ChatCompletionRequest.t) (st : State) :
  ChatCompletionRequest.Model req ≠ "" →
  ChatCompletionRequest.Messages req ≠ [] →
  let openAIRequest :=
    OpenAIRequest.mk
      (ChatCompletionRequest.Model req)
      (ChatCompletionRequest.Messages req)
      (ChatCompletionRequest.MaxTokens req)
      (ChatCompletionRequest.Temperature req)
      (ChatCompletionRequest.TopP req)
      (ChatCompletionRequest.Stream req) in
  let st' := mkState (client st) (trace st ++ [ev_json_Marshal openAIRequest]) in
  (∀ cause,
     json_Marshal E openAIRequest = inr cause →
     ChatCompletion E ctx req st =
       (Returns (None, Some (errors_Wrap
                               ("failed to marshal request: " +:+ error_Error cause)
                               cause)),
        st')) ∧
  (∀ requestBody cause,
     json_Marshal E openAIRequest = inl requestBody →
     http_NewRequest_refuses E ctx "POST"
       (baseURL (client st) +:+ "/chat/completions") = Some cause →
     ChatCompletion E ctx req st =
       (Returns (None, Some (errors_Wrap
                               ("failed to create request: " +:+ error_Error cause)
                               cause)),
        st')).
Proof.
  intros Hmodel Hmsgs. cbn zeta.
  assert (Hlen : length (ChatCompletionRequest.Messages req) ≠ 0%nat)
    by (by destruct (ChatCompletionRequest.Messages req)).
  split.
  - intros cause Hmarshal.
    unfold ChatCompletion. go_unfold.
    rewrite !decide_False by done. by rewrite Hmarshal.
  - intros requestBody cause Hmarshal Hrefused.
    unfold ChatCompletion, http_NewRequestWithContext. go_unfold.
    rewrite !decide_False by done. by rewrite Hmarshal, Hrefused.
Qed.

Lemma ChatCompletion_fails_before_send_witness :
  ChatCompletion Examples.healthy context_nil
    (ChatCompletionRequest.mk "gpt-4" Examples.hello None None None false)
    Examples.client0
  = (Returns (None, Some (errors_Wrap
                            "failed to create request: net/http: nil Context"
                            (errors_New "net/http: nil Context"))),
     mkState (client Examples.client0)
       [ev_json_Marshal
          (OpenAIRequest.mk "gpt-4" Examples.hello None None None false)]).
Proof.
  refine (proj2 (ChatCompletion_fails_before_send Examples.healthy context_nil
                   (ChatCompletionRequest.mk "gpt-4" Examples.hello None None None false)
                   Examples.client0 _ _)
            "{..}" (errors_New "net/http: nil Context") _ _).
  - discriminate.
  - discriminate.
  - reflexivity.
  - reflexivity.
Defined.

Example ChatCompletion_example_marshal_fails :
  ChatCompletion Faults.marshal_fails context_Background
    (ChatCompletionRequest.mk "gpt-4" Examples.hello None None None false)
    Examples.client0
  = (Returns (None, Some (errors_Wrap
                            "failed to marshal request: json: unsupported value: NaN"
                            (errors_New "json: unsupported value: NaN"))),
     mkState (client Examples.client0)
       [ev_json_Marshal
          (OpenAIRequest.mk "gpt-4" Examples.hello None None None false)]).
Proof. vm_compute. reflexivity. Qed.

(** X5: when the send of a [ChatCompletion] call fails, the call returns the
    transport error wrapped behind ["failed to send request: "] and closes
    no body; when the answer has status 200 and its body was read but does
    not decode, the call returns the decoding error wrapped behind
    ["failed to parse response: "]. *)
Theorem ChatCompletion_fails_after_send (E : Env) (ctx : Context)
    (req : ChatCompletionRequest.t) (st st' : State)
    (out : outcome (option ChatCompletionResponse.t * option error))
    (hc : http.Client.t) (httpReq : http.Request.t)
    (result : http.Response.t + error) :
  ChatCompletion E ctx req st = (out, st') →
  ev_Client_Do hc httpReq result ∈ new_events st st' →
  match result with
  | inr cause =>
      out = Returns (None, Some (errors_Wrap
                                   ("failed to send request: " +:+ error_Error cause)
                                   cause)) ∧
      ev_Body_Close ∉ new_events st st'
  | inl resp =>
      ev_Body_Close ∈ new_events st st' ∧
      ∀ responseBody cause,
        http.Response.StatusCode resp = http.StatusOK →
        io_ReadAll (http.Response.Body resp) = inl responseBody →
        json_Unmarshal_ChatCompletionResponse E responseBody = inr cause →
        out = Returns (None, Some (errors_Wrap
                                     ("failed to parse response: " +:+ error_Error cause)
                                     cause))
  end.
Proof.
  intros Hcall Hev.
  unfold ChatCompletion in Hcall. go_unfold.
  repeat case_match; simplify_eq; events_in Hev; same_answer; events_of_run;
    use_answers.
  all: try (split; [done|]; intros Hclose;
            repeat (apply elem_of_cons in Hclose as [Hclose|Hclose];
                    [simplify_eq|]);
            by apply elem_of_nil in Hclose).
  all: split; [apply list_elem_of_further, list_elem_of_further, list_elem_of_here|].
  all: intros body cause Hstatus Hbody Hparse; simplify_eq; same_answer; done.
Qed.

Lemma ChatCompletion_fails_after_send_witness :
  fst (ChatCompletion Faults.unreachable context_Background
         (ChatCompletionRequest.mk "gpt-4" Examples.hello None None None false)
         Examples.client0)
  = Returns (None, Some (errors_Wrap
                           ("failed to send request: "
                              +:+ error_Error (errors_New "dial tcp: connection refused"))
                           (errors_New "dial tcp: connection refused"))) ∧
  ev_Body_Close
    ∉ new_events Examples.client0
        (snd (ChatCompletion Faults.unreachable context_Background
                (ChatCompletionRequest.mk "gpt-4" Examples.hello None None None false)
                Examples.client0)).
Proof.
  pose (req := ChatCompletionRequest.mk "gpt-4" Examples.hello None None None false).
  pose (run := ChatCompletion Faults.unreachable context_Background req
                 Examples.client0).
  refine (ChatCompletion_fails_after_send Faults.unreachable context_Background
            req Examples.client0 (snd run) (fst run)
            (http.Client.mk 30000000000)
            (http.Request.mk context_Background "POST"
               "https://api.openai.com/v1/chat/completions"
               (<["Authorization" := ["Bearer sk-test"]]>
                  (<["Content-Type" := ["application/json"]]> ∅))
               (Some "{..}"))
            (inr (errors_New "dial tcp: connection refused")) _ _).
  - reflexivity.
  - vm_compute. apply list_elem_of_further, list_elem_of_here.
Defined.

Example ChatCompletion_example_garbled :
  fst (ChatCompletion Faults.garbled context_Background
         (ChatCompletionRequest.mk "gpt-4" Examples.hello None None None false)
         Examples.client0)
  = Returns (None, Some (errors_Wrap
                           "failed to parse response: unexpected end of JSON input"
                           (errors_New "unexpected end of JSON input"))).
Proof. vm_compute. reflexivity. Qed.

(** ** What the network calls leave alone *)

(** However [ChatCompletion] ends, the client is as before and the trace
    has only grown. *)
Lemma ChatCompletion_frame (E : Env) (ctx : Context)
    (req : ChatCompletionRequest.t) (st st' : State)
    (out : outcome (option ChatCompletionResponse.t * option error)) :
  ChatCompletion E ctx req st = (out, st') →
  client st' = client st ∧ trace st `prefix_of` trace st'.
Proof.
  intros Hcall. unfold ChatCompletion in Hcall. go_unfold.
  repeat case_match; simplify_eq; cbn [client trace]; (split; [done|]);
    repeat apply prefix_app_r; reflexivity.
Qed.

(** X6: [ChatCompletion], [SendMessage], [IsAvailable] and [GetModels] never
    change the client (credential, base URL, default model, HTTP client),
    however they end, and never drop anything from the trace: they only add
    to it. *)
Theorem network_calls_keep_client (E : Env)
    (decode : http.ReadCloser.t → list Model.t + error) (ctx : Context)
    (chatReq : ChatCompletionRequest.t) (req : Request.t) (st : State) :
  (client (snd (ChatCompletion E ctx chatReq st)) = client st ∧
   trace st `prefix_of` trace (snd (ChatCompletion E ctx chatReq st))) ∧
  (client (snd (SendMessage E ctx req st)) = client st ∧
   trace st `prefix_of` trace (snd (SendMessage E ctx req st))) ∧
  (client (snd (IsAvailable E ctx st)) = client st ∧
   trace st `prefix_of` trace (snd (IsAvailable E ctx st))) ∧
  (client (snd (GetModels E decode ctx st)) = client st ∧
   trace st `prefix_of` trace (snd (GetModels E decode ctx st))).
Proof.
  split_and!.
  - by eapply ChatCompletion_frame, surjective_pairing.
  - by eapply ChatCompletion_frame, surjective_pairing.
  - rewrite SendMessage_eq.
    destruct (ChatCompletion E ctx _ st) as [out st'] eqn:Hcall.
    apply ChatCompletion_frame in Hcall as [Hclient _].
    destruct out as [[[chatResp|] [err|]]|reason]; try done.
    by destruct (ChatCompletionResponse.Choices chatResp).
  - rewrite SendMessage_eq.
    destruct (ChatCompletion E ctx _ st) as [out st'] eqn:Hcall.
    apply ChatCompletion_frame in Hcall as [_ Htrace].
    destruct out as [[[chatResp|] [err|]]|reason]; try done.
    by destruct (ChatCompletionResponse.Choices chatResp).
  - unfold IsAvailable. go_unfold. by repeat case_match; simplify_eq.
  - unfold IsAvailable. go_unfold.
    repeat case_match; simplify_eq; cbn [snd trace];
      repeat apply prefix_app_r; reflexivity.
  - unfold GetModels. go_unfold. by repeat case_match; simplify_eq.
  - unfold GetModels. go_unfold.
    repeat case_match; simplify_eq; cbn [snd trace];
      repeat apply prefix_app_r; reflexivity.
Qed.

(** ** The legacy response *)



(** [Configure] in closed form, on a client that has its HTTP client. *)
Lemma Configure_eq (config : gmap string any) (st : State) (hc : http.Client.t) :
  httpClient (client st) = Some hc →
  Configure config st =
    (Returns
       (if decide (default (apiKey (client st)) (string_option config "api_key") = "")
        then Some (fmt_Errorf "api_key is required") else None),
     mkState
       (mkClient
          (default (apiKey (client st)) (string_option config "api_key"))
          (default (baseURL (client st)) (string_option config "base_url"))
          (Some (http.Client.mk
                   (default (http.Client.Timeout hc)
                      (Duration_option config "timeout"))))
          (default (model (client st)) (string_option config "model")))
       (trace st)).
Proof.
  intros Hhc. destruct st as [[k u h m] tr]; cbn [client httpClient] in Hhc.
  unfold Configure, bind.
  rewrite (Configure_string_step config "api_key" set_apiKey apiKey) by done.
  rewrite (Configure_string_step config "base_url" set_baseURL baseURL) by done.
  rewrite (Configure_string_step config "model" set_model model) by done.
  rewrite (Configure_timeout_step config _ hc) by done.
  cbn [client trace apiKey baseURL model httpClient set_apiKey set_baseURL set_model
       get_client ret].
  by destruct (decide _).
Qed.

(** X8: [SetDefaultModel] stores any string, the empty one too, which
    [Configure] never does.  After [SetDefaultModel("")] a legacy request
    that names no model is refused by the validation of [ChatCompletion]:
    [SendMessage] returns the error ["model is required"] in a response and
    beside it, and nothing is marshaled or sent; after
    [Configure] with an empty ["model"] option the default model is what
    it was. *)
Theorem empty_default_model (E : Env) (ctx : Context) (req : Request.t)
    (st : State) (hc : http.Client.t) :
  Request.Model req = "" →
  httpClient (client st) = Some hc →
  (let* _ := SetDefaultModel "" in SendMessage E ctx req) st
  = (Returns (Some (Response.mk "" 0 "" time.zero
                      (Some (fmt_Errorf "model is required"))),
              Some (fmt_Errorf "model is required")),
     mkState (mkClient (apiKey (client st)) (baseURL (client st))
                (httpClient (client st)) "")
       (trace st)) ∧
  ∃ out st',
    Configure {["model" := any_string ""]} st = (Returns out, st') ∧
    model (client st') = model (client st).
Proof.
  intros Hmodel Hhc. split.
  - unfold SetDefaultModel, bind at 1, modify_client, modify, set_model.
    rewrite SendMessage_eq. unfold forwarded_request, ChatCompletion.
    go_unfold. cbn [client model trace ChatCompletionRequest.Model].
    rewrite Hmodel. by rewrite !decide_True.
  - rewrite (Configure_eq _ _ hc Hhc). by eexists _, _.
Qed.

Lemma empty_default_model_witness :
  (let* _ := SetDefaultModel "" in
   SendMessage Examples.healthy context_Background
     (Request.mk "" Examples.hello None None None false)) Examples.client0
  = (Returns (Some (Response.mk "" 0 "" time.zero
                      (Some (fmt_Errorf "model is required"))),
              Some (fmt_Errorf "model is required")),
     mkState (mkClient "sk-test" "https://api.openai.com/v1"
                (Some (http.Client.mk 30000000000)) "")
       []).
Proof.
  exact (proj1 (empty_default_model Examples.healthy context_Background
                  (Request.mk "" Examples.hello None None None false)
                  Examples.client0 (http.Client.mk 30000000000)
                  eq_refl eq_refl)).
Defined.

(** ** Configure *)

(** X9: [Configure] is idempotent: a second call with the same mapping
    returns what the first returned and leaves the state the first left. *)
Theorem Configure_idempotent (config : gmap string any) (st st1 : State)
    (out : outcome (option error)) :
  is_Some (httpClient (client st)) →
  Configure config st = (out, st1) →
  Configure config st1 = (out, st1).
Proof.
  intros [hc Hhc] Hcall.
  rewrite (Configure_eq config st hc Hhc) in Hcall. simplify_eq.
  erewrite Configure_eq; [|reflexivity].
  cbn [client trace apiKey baseURL model httpClient http.Client.Timeout].
  destruct (string_option config "api_key"), (string_option config "base_url"),
    (string_option config "model"), (Duration_option config "timeout");
    reflexivity.
Qed.

Lemma Configure_idempotent_witness :
  Configure {["base_url" := any_string "http://localhost:8080/v1";
              "timeout" := any_Duration 5000000000]}
    (snd (Configure {["base_url" := any_string "http://localhost:8080/v1";
                      "timeout" := any_Duration 5000000000]} Examples.client0))
  = Configure {["base_url" := any_string "http://localhost:8080/v1";
                "timeout" := any_Duration 5000000000]} Examples.client0.
Proof.
  pose (config := ({["base_url" := any_string "http://localhost:8080/v1";
                     "timeout" := any_Duration 5000000000]} : gmap string any)).
  pose (run := Configure config Examples.client0).
  change (Configure config (snd run) = run).
  rewrite (surjective_pairing run) at 2.
  refine (Configure_idempotent config Examples.client0 (snd run) (fst run) _ _).
  - eexists. reflexivity.
  - apply surjective_pairing.
Defined.

(** X10: [Configure] reads the four options ["api_key"], ["base_url"],
    ["model"] and ["timeout"] and nothing else: two mappings that agree on
    these four keys have the same effect.  In particular a mapping with
    none of them changes nothing and returns an error exactly when the
    client has no credential. *)
Theorem Configure_other_keys (config1 config2 : gmap string any) (st : State) :
  (config1 !! "api_key" = config2 !! "api_key" →
   config1 !! "base_url" = config2 !! "base_url" →
   config1 !! "model" = config2 !! "model" →
   config1 !! "timeout" = config2 !! "timeout" →
   Configure config1 st = Configure config2 st) ∧
  (config1 !! "api_key" = None →
   config1 !! "base_url" = None →
   config1 !! "model" = None →
   config1 !! "timeout" = None →
   Configure config1 st =
     (Returns (if decide (apiKey (client st) = "")
               then Some (fmt_Errorf "api_key is required") else None),
      st)).
Proof.
  split.
  - intros Hk Hu Hm Ht. unfold Configure. by rewrite Hk, Hu, Hm, Ht.
  - intros Hk Hu Hm Ht. unfold Configure. rewrite Hk, Hu, Hm, Ht.
    destruct st as [c tr]. cbn.
    by destruct (decide (apiKey c = "")).
Qed.

Example Configure_example_unknown_options :
  Configure {["name" := any_string "CustomMock"; "setting" := any_string "test_value"]}
    Examples.client0
  = (Returns None, Examples.client0).
Proof. reflexivity. Qed.

(** X11: [Configure] never clears a field.  On a client that has its HTTP
    client and a credential, it reports no error and the credential stays
    non-empty; a base URL and a default model that are not empty stay so,
    and a positive timeout stays positive. *)
Theorem Configure_never_clears (config : gmap string any) (st : State)
    (hc : http.Client.t) :
  httpClient (client st) = Some hc →
  ∃ out st' hc',
    Configure config st = (Returns out, st') ∧
    httpClient (client st') = Some hc' ∧
    (apiKey (client st) ≠ "" → out = None ∧ apiKey (client st') ≠ "") ∧
    (baseURL (client st) ≠ "" → baseURL (client st') ≠ "") ∧
    (model (client st) ≠ "" → model (client st') ≠ "") ∧
    (0 < http.Client.Timeout hc → 0 < http.Client.Timeout hc').
Proof.
  intros Hhc. rewrite (Configure_eq config st hc Hhc).
  eexists _, _, _. split; [reflexivity|].
  cbn [client apiKey baseURL model httpClient http.Client.Timeout].
  split; [reflexivity|].
  unfold string_option, Duration_option.
  split_and!; intros Hne; repeat case_match; simplify_eq; cbn [default] in *;
    try done.
Qed.

Lemma Configure_never_clears_witness :
  ∃ out st' hc',
    Configure {["api_key" := any_string ""; "timeout" := any_Duration (-1)]}
      Examples.client0 = (Returns out, st') ∧
    httpClient (client st') = Some hc' ∧
    (apiKey (client Examples.client0) ≠ "" → out = None ∧ apiKey (client st') ≠ "") ∧
    (baseURL (client Examples.client0) ≠ "" → baseURL (client st') ≠ "") ∧
    (model (client Examples.client0) ≠ "" → model (client st') ≠ "") ∧
    (0 < http.Client.Timeout (http.Client.mk 30000000000) →
     0 < http.Client.Timeout hc').
Proof.
  exact (Configure_never_clears
           {["api_key" := any_string ""; "timeout" := any_Duration (-1)]}
           Examples.client0 (http.Client.mk 30000000000) eq_refl).
Defined.

(** ** NewClient *)

(** X12: whatever the configuration, the client [NewClient] returns has a
    base URL and a default model that are not empty, an HTTP client, and a
    timeout that is not zero; the credential is taken as given, and
    [MaxRetries] has no effect on the client. *)
Theorem NewClient_ready (config : Config.t) :
  baseURL (NewClient config) ≠ "" ∧
  model (NewClient config) ≠ "" ∧
  (∃ hc, httpClient (NewClient config) = Some hc ∧ http.Client.Timeout hc ≠ 0) ∧
  apiKey (NewClient config) = Config.APIKey config ∧
  ∀ maxRetries,
    NewClient (Config.mk (Config.APIKey config) (Config.BaseURL config)
                 (Config.Model config) (Config.Timeout config) maxRetries)
    = NewClient config.
Proof.
  unfold NewClient. cbn [baseURL model httpClient apiKey Config.APIKey
    Config.BaseURL Config.Model Config.Timeout].
  split_and!.
  - by case_decide.
  - by case_decide.
  - eexists; split; [reflexivity|]. cbn. by case_decide.
  - reflexivity.
  - reflexivity.
Qed.

(** ** IsAvailable and GetModels *)


(** X14: when the provider answers [GetModels] with a status other than 200,
    the call returns no models and the error ["API error: "] followed by
    the status code; the body is closed but never decoded, so the result
    does not depend on what the body holds. *)
Theorem GetModels_status (E : Env)
    (decode : http.ReadCloser.t → list Model.t + error) (ctx : Context)
    (st st' : State) (out : outcome (list Model.t * option error))
    (hc : http.Client.t) (req : http.Request.t) (resp : http.Response.t) :
  GetModels E decode ctx st = (out, st') →
  ev_Client_Do hc req (inl resp) ∈ new_events st st' →
  http.Response.StatusCode resp ≠ http.StatusOK →
  out = Returns ([], Some (fmt_Errorf
                             ("API error: " +:+ pretty (http.Response.StatusCode resp)))) ∧
  ev_Body_Close ∈ new_events st st' ∧
  ∀ decode', GetModels E decode' ctx st = (out, st').
Proof.
  intros Hcall Hev Hstatus.
  unfold GetModels in Hcall. go_unfold.
  repeat case_match; simplify_eq; events_in Hev; same_answer; try done.
  all: events_of_run; use_answers.
  all: split_and!;
    [ done
    | apply list_elem_of_further, list_elem_of_here
    | intros decode'; unfold GetModels; go_unfold; replay;
      cbn [client trace]; by rewrite <- ?app_assoc ].
Qed.

Lemma GetModels_status_witness :
  fst (GetModels
         (Examples.provider 401 None (inr (errors_New "EOF")))
         Faults.decode_models context_Background Examples.client0)
  = Returns ([], Some (fmt_Errorf ("API error: " +:+ pretty 401))).
Proof.
  pose (E := Examples.provider 401 None (inr (errors_New "EOF"))).
  pose (run := GetModels E Faults.decode_models context_Background Examples.client0).
  refine (proj1 (GetModels_status E Faults.decode_models context_Background
                   Examples.client0 (snd run) (fst run)
                   (http.Client.mk 30000000000)
                   (http.Request.mk context_Background "GET"
                      "https://api.openai.com/v1/models"
                      (<["Authorization" := ["Bearer sk-test"]]> ∅) None)
                   (http.Response.mk 401 (http.ReadCloser.mk "<body>" None))
                   _ _ _)).
  - reflexivity.
  - vm_compute. apply list_elem_of_here.
  - vm_compute. discriminate.
Defined.

(** X15: [GetModels] never returns models together with an error: with an
    error the list is empty (nil); without one, the list is what the body
    of an answer with status 200 decoded to. *)
Theorem GetModels_result (E : Env)
    (decode : http.ReadCloser.t → list Model.t + error) (ctx : Context)
    (st st' : State) (models : list Model.t) (err : option error) :
  GetModels E decode ctx st = (Returns (models, err), st') →
  match err with
  | Some _ => models = []
  | None =>
      ∃ hc req resp,
        new_events st st' = [ev_Client_Do hc req (inl resp); ev_Body_Close] ∧
        http.Response.StatusCode resp = http.StatusOK ∧
        decode (http.Response.Body resp) = inl models
  end.
Proof.
  intros Hcall. unfold GetModels in Hcall. go_unfold.
  repeat case_match; simplify_eq; try done.
  eexists _, _, _. events_of_run. use_answers. split_and!; try done.
  match goal with |- ?a = ?b => by destruct (decide (a = b)) end.
Qed.

Lemma GetModels_result_witness :
  ∃ hc req resp,
    new_events Examples.client0
      (snd (GetModels Examples.healthy Faults.decode_models context_Background
              Examples.client0))
    = [ev_Client_Do hc req (inl resp); ev_Body_Close] ∧
    http.Response.StatusCode resp = http.StatusOK ∧
    Faults.decode_models (http.Response.Body resp) = inl Faults.models.
Proof.
  refine (GetModels_result Examples.healthy Faults.decode_models
            context_Background Examples.client0 _ Faults.models None _).
  reflexivity.
Defined.

Example GetModels_example_decode_fails :
  fst (GetModels Examples.healthy Faults.decode_fails context_Background
         Examples.client0)
  = Returns ([], Some (errors_Wrap
      "failed to decode response: invalid character '<' looking for beginning of value"
      (errors_New "invalid character '<' looking for beginning of value"))).
Proof. vm_compute. reflexivity. Qed.

(** X16: [IsAvailable] probes with the request [GetModels] sends: run from
    the same state the two calls end in the same state, with the same
    request sent and the same answer received.  So when [IsAvailable]
    returns [true], [GetModels] in its place gets an answer with status
    200 and can only fail in decoding it. *)
Theorem IsAvailable_GetModels (E : Env)
    (decode : http.ReadCloser.t → list Model.t + error) (ctx : Context)
    (st : State) :
  snd (GetModels E decode ctx st) = snd (IsAvailable E ctx st) ∧
  (fst (IsAvailable E ctx st) = Returns true →
   ∃ hc req resp,
     new_events st (snd (IsAvailable E ctx st))
       = [ev_Client_Do hc req (inl resp); ev_Body_Close] ∧
     fst (GetModels E decode ctx st) =
       Returns
         match decode (http.Response.Body resp) with
         | inl data => (data, None)
         | inr err => ([], Some (fmt_Errorf_w "failed to decode response: " err))
         end).
Proof.
  split.
  - unfold GetModels, IsAvailable. go_unfold.
    by repeat case_match; simplify_eq.
  - intros Hup. unfold GetModels, IsAvailable in *. go_unfold.
    repeat case_match; simplify_eq; cbn [fst snd] in *; simplify_eq.
    all: try match goal with
             | H : bool_decide _ = true |- _ => apply bool_decide_eq_true in H
             end; try done.
    all: eexists _, _, _; events_of_run; use_answers;
      (split; [reflexivity|]); by use_answers.
Qed.

Example IsAvailable_GetModels_example :
  fst (IsAvailable Examples.healthy context_Background Examples.client0)
    = Returns true ∧
  fst (GetModels Examples.healthy Faults.decode_models context_Background
         Examples.client0)
    = Returns (Faults.models, None).
Proof. split; reflexivity. Qed.

(** ** The example program *)

(** X17: the program of examples/basic never panics; without
    [OPENAI_API_KEY] it stops at [log.Fatal] before it builds a client, and
    marshals and sends nothing; with it, its request always passes
    validation (the first event is the marshal of the request it builds).
    Whatever it sends goes to
    ["https://api.openai.com/v1/chat/completions"] with a timeout of 30
    seconds and carries the non-empty credential of the environment.  It
    prints on standard output exactly when it returns normally. *)
Theorem basic_main_run (E : Env) (os_Getenv : string → string) :
  let run := basic.main E os_Getenv in
  let key := os_Getenv "OPENAI_API_KEY" in
  (∀ reason, basic.ended run ≠ basic.panicked reason) ∧
  (key = "" →
   run = basic.mkRun
           (basic.log_Fatal "OPENAI_API_KEY environment variable is required")
           [] []) ∧
  (key ≠ "" →
   ∃ rest,
     basic.sent run =
       ev_json_Marshal
         (OpenAIRequest.mk
            (ChatCompletionRequest.Model basic.request)
            (ChatCompletionRequest.Messages basic.request)
            (ChatCompletionRequest.MaxTokens basic.request)
            (ChatCompletionRequest.Temperature basic.request)
            (ChatCompletionRequest.TopP basic.request)
            (ChatCompletionRequest.Stream basic.request)) :: rest) ∧
  (∀ hc httpReq result,
     ev_Client_Do hc httpReq result ∈ basic.sent run →
     key ≠ "" ∧
     hc = http.Client.mk (30 * time.Second) ∧
     http.Request.Method httpReq = "POST" ∧
     http.Request.URL httpReq = "https://api.openai.com/v1/chat/completions" ∧
     http.Request.Header httpReq !! "Authorization" = Some ["Bearer " +:+ key]) ∧
  (basic.ended run = basic.returned ↔ basic.stdout run ≠ []).
Proof.
  cbn zeta. unfold basic.main.
  destruct (decide (os_Getenv "OPENAI_API_KEY" = "")) as [Hkey|Hkey].
  { split_and!; try done.
    intros hc httpReq result Hev. cbn in Hev. by apply elem_of_nil in Hev. }
  unfold ChatCompletion, http_NewRequestWithContext. go_unfold.
  rewrite (decide_False (P := ChatCompletionRequest.Model basic.request = ""))
    by done.
  rewrite (decide_False
             (P := length (ChatCompletionRequest.Messages basic.request) = 0%nat))
    by done.
  cbn [client trace app NewClient httpClient baseURL apiKey Config.APIKey
       Config.BaseURL Config.Model Config.Timeout].
  rewrite (decide_True (P := "" = "")) by done.
  rewrite (decide_True (P := 0 = 0)) by done.
  repeat case_match; simplify_eq; cbn [basic.ended basic.stdout basic.sent trace app];
    split_and!; try done; eauto.
  all: try (intros hc httpReq result Hev;
            repeat (apply elem_of_cons in Hev as [Hev|Hev]; [simplify_eq|]);
            [ .. | by apply elem_of_nil in Hev ];
            split_and!; try done;
            cbn [http.Request.Header http.Request.Header_Set];
            by rewrite lookup_insert_eq).
  all: try (split; [done | intros Hout; by destruct Hout]).
  all: try (exfalso; match goal with
            | H : (0 < length ?l)%nat, H' : ?l !! 0%nat = None |- _ =>
                apply lookup_ge_None in H'; lia
            end).
Qed.

Example basic_main_example :
  basic.main Examples.healthy Faults.getenv
  = basic.mkRun basic.returned
      [ "AI Response: Hello! How can I help?" +:+ basic.newline;
        "Tokens used: 16" +:+ basic.newline ]
      [ ev_json_Marshal
          (OpenAIRequest.mk "gpt-3.5-turbo"
             (ChatCompletionRequest.Messages basic.request)
             (Some 100) (Some 0x1.6666666666666p-1%float) None false);
        ev_Client_Do (http.Client.mk 30000000000)
          (http.Request.mk context_Background "POST"
             "https://api.openai.com/v1/chat/completions"
             (<["Authorization" := ["Bearer sk-test"]]>
                (<["Content-Type" := ["application/json"]]> ∅))
             (Some "{..}"))
          (inl (http.Response.mk 200 (http.ReadCloser.mk "<body>" None)));
        ev_Body_Close ].
Proof. vm_compute. reflexivity. Qed.

Example basic_main_example_rate_limited :
  basic.ended
    (basic.main
       (Examples.provider 429 None
          (inl (ErrorResponse.mk "Rate limit reached" "requests" "rate_limit_exceeded")))
       Faults.getenv)
  = basic.log_Fatal
      "Error making request: OpenAI API error (429): Rate limit reached".
Proof. vm_compute. reflexivity. Qed.

(** ** Configuration and requests together *)

(** X18: what [Configure] sets is what the next request uses, also when
    [Configure] reported the missing credential (it does not undo its
    updates): a request sent by [ChatCompletion] after [Configure] goes to
    the configured base URL, carries the configured credential, and is sent
    through an HTTP client with the configured timeout, each of them the
    option's value when the option holds one, and the former value
    otherwise. *)
Theorem Configure_then_ChatCompletion (E : Env) (ctx : Context)
    (config : gmap string any) (req : ChatCompletionRequest.t) (st : State)
    (hc0 hc : http.Client.t) (httpReq : http.Request.t)
    (result : http.Response.t + error) :
  httpClient (client st) = Some hc0 →
  let st1 := snd (Configure config st) in
  ev_Client_Do hc httpReq result
    ∈ new_events st1 (snd (ChatCompletion E ctx req st1)) →
  http.Request.URL httpReq =
    default (baseURL (client st)) (string_option config "base_url")
      +:+ "/chat/completions" ∧
  http.Request.Header httpReq !! "Authorization" =
    Some ["Bearer " +:+ default (apiKey (client st)) (string_option config "api_key")] ∧
  http.Client.Timeout hc =
    default (http.Client.Timeout hc0) (Duration_option config "timeout").
Proof.
  intros Hhc. cbn zeta. rewrite (Configure_eq config st hc0 Hhc). cbn [snd].
  intros Hev. unfold ChatCompletion, http_NewRequestWithContext in Hev.
  go_unfold. cbn [client trace apiKey baseURL httpClient] in Hev.
  unfold new_events in Hev.
  repeat case_match; simplify_eq; cbn [fst snd trace] in Hev;
    rewrite <- ?app_assoc in Hev;
    rewrite ?drop_app_length, ?drop_all in Hev; cbn [app] in Hev;
    repeat (apply elem_of_cons in Hev as [Hev|Hev]; [simplify_eq|]);
    try (by apply elem_of_nil in Hev).
  all: cbn [http.Request.URL http.Request.Header http.Request.Header_Set
            http.Client.Timeout];
    by rewrite lookup_insert_eq.
Qed.

Lemma Configure_then_ChatCompletion_witness :
  http.Request.URL
    (http.Request.mk context_Background "POST"
       "http://localhost:8080/v1/chat/completions"
       (<["Authorization" := ["Bearer sk-test"]]>
          (<["Content-Type" := ["application/json"]]> ∅))
       (Some "{..}"))
  = default (baseURL (client Examples.client0))
      (string_option
         {["base_url" := any_string "http://localhost:8080/v1";
           "timeout" := any_Duration 5000000000]} "base_url")
      +:+ "/chat/completions" ∧
  http.Request.Header
    (http.Request.mk context_Background "POST"
       "http://localhost:8080/v1/chat/completions"
       (<["Authorization" := ["Bearer sk-test"]]>
          (<["Content-Type" := ["application/json"]]> ∅))
       (Some "{..}")) !! "Authorization"
  = Some ["Bearer " +:+ default (apiKey (client Examples.client0))
                          (string_option
                             {["base_url" := any_string "http://localhost:8080/v1";
                               "timeout" := any_Duration 5000000000]} "api_key")] ∧
  http.Client.Timeout (http.Client.mk 5000000000)
  = default (http.Client.Timeout (http.Client.mk 30000000000))
      (Duration_option
         {["base_url" := any_string "http://localhost:8080/v1";
           "timeout" := any_Duration 5000000000]} "timeout").
Proof.
  refine (Configure_then_ChatCompletion Examples.healthy context_Background
            {["base_url" := any_string "http://localhost:8080/v1";
              "timeout" := any_Duration 5000000000]}
            (ChatCompletionRequest.mk "gpt-4" Examples.hello None None None false)
            Examples.client0
            (http.Client.mk 30000000000) (http.Client.mk 5000000000)
            (http.Request.mk context_Background "POST"
               "http://localhost:8080/v1/chat/completions"
               (<["Authorization" := ["Bearer sk-test"]]>
                  (<["Content-Type" := ["application/json"]]> ∅))
               (Some "{..}"))
            (inl (http.Response.mk 200 (http.ReadCloser.mk "<body>" None)))
            eq_refl _).
  vm_compute. apply list_elem_of_further, list_elem_of_here.
Defined.

(** A client is ready when it has its HTTP client, a base URL and a
    default model. *)
Lemma Configure_ready (config : gmap string any) (st : State) :
  is_Some (httpClient (client st)) →
  baseURL (client st) ≠ "" →
  model (client st) ≠ "" →
  let st' := snd (Configure config st) in
  trace st' = trace st ∧
  is_Some (httpClient (client st')) ∧
  baseURL (client st') ≠ "" ∧
  model (client st') ≠ "".
Proof.
  intros [hc Hhc] Hurl Hmodel. cbn zeta.
  rewrite (Configure_eq config st hc Hhc).
  cbn [snd client trace baseURL model httpClient].
  unfold string_option.
  split_and!; [done | by eexists | |];
    repeat case_match; simplify_eq; cbn [default]; done.
Qed.

(** X19: a client built by [NewClient] and then configured by any sequence
    of [Configure] calls, whatever these return, has sent nothing, has a
    base URL and a default model that are not empty, and never makes a
    network method panic: [ChatCompletion], [SendMessage], [IsAvailable]
    and [GetModels] all return on it. *)
Theorem configured_client_ready (config : Config.t)
    (options : list (gmap string any)) :
  let st := configured config options in
  trace st = [] ∧
  baseURL (client st) ≠ "" ∧
  model (client st) ≠ "" ∧
  ∀ (E : Env) (decode : http.ReadCloser.t → list Model.t + error)
    (ctx : Context) (chatReq : ChatCompletionRequest.t) (req : Request.t),
    (∃ r st', ChatCompletion E ctx chatReq st = (Returns r, st')) ∧
    (∃ r st', SendMessage E ctx req st = (Returns r, st')) ∧
    (∃ r st', IsAvailable E ctx st = (Returns r, st')) ∧
    (∃ r st', GetModels E decode ctx st = (Returns r, st')).
Proof.
  cbn zeta.
  assert (Hready :
    trace (configured config options) = [] ∧
    is_Some (httpClient (client (configured config options))) ∧
    baseURL (client (configured config options)) ≠ "" ∧
    model (client (configured config options)) ≠ "").
  { unfold configured.
    induction options as [|last options' IH] using rev_ind.
    - cbn [foldl trace client]. unfold NewClient.
      cbn [httpClient baseURL model].
      split_and!; [done | by eexists | by case_decide | by case_decide].
    - rewrite foldl_snoc.
      destruct IH as (Htrace & Hhc & Hurl & Hmodel).
      destruct (Configure_ready last _ Hhc Hurl Hmodel)
        as (Htrace' & Hhc' & Hurl' & Hmodel').
      split_and!; [congruence | done | done | done]. }
  destruct Hready as (Htrace & Hhc & Hurl & Hmodel).
  split_and!; try done.
  intros E decode ctx chatReq req. split_and!.
  - by apply ChatCompletion_returns.
  - by apply SendMessage_returns.
  - destruct Hhc as [hc Hhc].
    unfold IsAvailable. go_unfold. rewrite Hhc.
    repeat case_match; simplify_eq; eauto.
  - destruct Hhc as [hc Hhc].
    unfold GetModels. go_unfold. rewrite Hhc.
    repeat case_match; simplify_eq; eauto.
Qed.
